(** * Payment requests of the wallet: a model of [electrum/invoices.py]

    The module defines two kinds of payment request, [OnchainInvoice] and
    [LNInvoice], their construction from keyword arguments with the
    validators that [attr.s] attaches to the fields, the factory
    [Invoice.from_json], the output normaliser [_decode_outputs] and the
    status text [Invoice.get_status_str].

    Python values are dynamically typed, so the fields of a record are kept
    as [pyval]; exceptions are the [Raise] branch of [result]; the one
    mutable attribute, the decoded form that [LNInvoice] memoises, lives in
    a state monad that also counts the calls made to the codec. *)

From Stdlib Require Import ZArith QArith String Ascii List Lia.
From Stdlib Require Strings.Byte.
From stdpp Require Import base option list gmap strings pretty.

Local Open Scope string_scope.
Local Open Scope Z_scope.

(** ** Python values *)

(** Modelled from the spec: [transaction.RavenValue] is imported, not defined,
    by the module.  The spec describes it as a value object wrapping a count
    of the smallest unit; the module reads the count back as [rvn_value].
    The count is rational because [LNInvoice.get_amount_sat] stores a
    [Decimal] with millisatoshi precision in it. *)
Record RavenValue := mkRavenValue { rvn_value : Q }.

(** [RavenValue()], the value with the default count. *)
Definition RavenValue_default : RavenValue := mkRavenValue (inject_Z 0).

(** [RavenValue(n)] for a Python int [n]. *)
Definition RavenValue_of_int (n : Z) : RavenValue := mkRavenValue (inject_Z n).

(** Modelled from the spec: [transaction.PartialTxOutput] is imported, not
    defined, by the module.  The spec describes an output as a destination
    plus an amount or the "max available" sentinel. *)
Inductive output_value :=
| OutExact (sat : Z)
| OutMax.

Record PartialTxOutput := mkOutput { address : string; value : output_value }.

Local Set Warnings "-register-all".
Inductive pyval :=
| PyNone
| PyBool (b : bool)
| PyInt (z : Z)
| PyFloat (q : Q)                        (* a finite float, by its exact value *)
| PyStr (s : string)
| PyList (l : list pyval)
| PyTuple (l : list pyval)
| PyDict (d : list (string * pyval))
| PyRavenValue (v : RavenValue)
| PyTxOutput (o : PartialTxOutput)
| PyObject (cls : string).               (* an instance of any other class:
                                            true, not iterable, equal to no int *)

#[global] Instance pyval_inhabited : Inhabited pyval := populate PyNone.

(** [isinstance(v, int)]: [bool] is a subclass of [int]. *)
Definition as_int (v : pyval) : option Z :=
  match v with
  | PyInt z => Some z
  | PyBool b => Some (if b then 1 else 0)
  | _ => None
  end.

(** [v == n] for an int literal [n]. *)
Definition py_eq_int (v : pyval) (n : Z) : bool :=
  match v with
  | PyInt z => z =? n
  | PyBool b => (if b then 1 else 0) =? n
  | PyFloat q => Qeq_bool q (inject_Z n)
  | _ => false
  end.

(** Truth value of the built-in types; objects are handled by the caller. *)
Definition builtin_truthy (v : pyval) : bool :=
  match v with
  | PyNone => false
  | PyBool b => b
  | PyInt z => negb (z =? 0)
  | PyFloat q => negb (Qeq_bool q (inject_Z 0))
  | PyStr s => negb (String.eqb s "")
  | PyList l | PyTuple l => negb (Nat.eqb (length l) 0)
  | PyDict d => negb (Nat.eqb (length d) 0)
  | _ => true
  end.

Definition chars (s : string) : list pyval :=
  map (fun c => PyStr (String c EmptyString)) (list_ascii_of_string s).

(** Iteration over a value ([for e in v], [f( *v)]): [None] when the value
    is not iterable, which Python reports as a [TypeError]. *)
Definition py_iter (v : pyval) : option (list pyval) :=
  match v with
  | PyList l | PyTuple l => Some l
  | PyStr s => Some (chars s)
  | PyDict d => Some (map (fun kv => PyStr (fst kv)) d)
  | _ => None
  end.

(** ** Exceptions *)

Inductive exn :=
| InvoiceError (msg : string)   (* util.InvoiceError, with the head of its message *)
| TypeError                     (* raised by Python itself and by attr's instance_of *)
| KeyError
| IndexError
| ForeignError.                 (* whatever an external collaborator raises *)

Inductive result (A : Type) :=
| Ok (a : A)
| Raise (e : exn).
Arguments Ok {A} a.
Arguments Raise {A} e.

Definition rbind {A B} (r : result A) (k : A -> result B) : result B :=
  match r with
  | Ok a => k a
  | Raise e => Raise e
  end.

Definition rmap {A B} (f : A -> B) (r : result A) : result B :=
  rbind r (fun a => Ok (f a)).

Notation "x <-! r ; k" := (rbind r (fun x => k))
  (at level 100, r at next level, right associativity).
Notation "r ;;! k" := (rbind r (fun _ => k))
  (at level 100, right associativity).

Definition is_InvoiceError {A} (r : result A) : Prop :=
  exists msg, r = Raise (InvoiceError msg).

(** ** Module constants *)

Definition PR_TYPE_ONCHAIN : Z := 0.
Definition PR_TYPE_LN : Z := 2.

Definition PR_UNPAID : Z := 0.
Definition PR_EXPIRED : Z := 1.
Definition PR_UNKNOWN : Z := 2.
Definition PR_PAID : Z := 3.
Definition PR_INFLIGHT : Z := 4.
Definition PR_FAILED : Z := 5.
Definition PR_ROUTING : Z := 6.
Definition PR_UNCONFIRMED : Z := 7.

Definition LN_EXPIRY_NEVER : Z := 100 * 365 * 24 * 60 * 60.

(** ** Keyword arguments *)

(** Binding [cls( **x)] against a generated [__init__] whose parameters are
    all required: an unexpected keyword and a missing argument are both a
    [TypeError], raised before the body runs. *)
Definition bind_kwargs (params : list string) (x : gmap string pyval) : result unit :=
  if decide (dom x ⊆ list_to_set params) then
    if decide (list_to_set params ⊆ dom x) then Ok tt else Raise TypeError
  else Raise TypeError.

Definition arg (x : gmap string pyval) (k : string) : pyval := default PyNone (x !! k).

(** [int(d)] for a [Decimal], by its exact value: rounding towards zero. *)
Definition Qtruncate (d : Q) : Z := Z.quot (Qnum d) (Zpos (Qden d)).

(** ** The arithmetic of [Decimal]

    A finite [Decimal] is kept by its exact value.  The constructor is
    exact; a product or a quotient is computed under the default context,
    whose precision is 28 digits: the result is the exact one when the
    context can hold it, that is, when it is [c * 10^-k] for an integer [c]
    of at most 28 digits and [0 <= k <= 1000026] (the least exponent of the
    context is -1000026). *)

(** The integer [num * 10^j / den] and the number [k + j] for the least [j]
    that makes the division exact, looked for up to [fuel]. *)
Fixpoint decimals (fuel : nat) (k : Z) (num : Z) (den : positive) : option (Z * Z) :=
  if Z.rem num (Zpos den) =? 0 then Some (Z.quot num (Zpos den), k)
  else
    match fuel with
    | O => None
    | S fuel => decimals fuel (k + 1) (num * 10) den
    end.

Definition context_holds (q : Q) : bool :=
  match decimals (S (Z.to_nat (Z.log2 (Zpos (Qden q))))) 0 (Qnum q) (Qden q) with
  | Some (c, k) => (Z.abs c <? 10 ^ 28) && (k <=? 1000026)
  | None => false
  end.

(** [bytes.hex()]: two lower-case hexadecimal digits for each byte. *)
Definition hex_digit (n : N) : ascii :=
  match String.get (N.to_nat n) "0123456789abcdef" with
  | Some c => c
  | None => "0"%char
  end.

Definition bytes_hex (bs : list Byte.byte) : string :=
  fold_right
    (fun b s =>
       String (hex_digit (Byte.to_N b / 16)) (String (hex_digit (Byte.to_N b mod 16)) s))
    "" bs.

(** Modelled from the spec: [paymentrequest.PaymentRequest] is imported for
    type checking only.  The spec lists what a decoded bridge-protocol
    request exposes; each field below is what the getter of that name
    returns, the creation time and the expiration date being ints. *)
Record PaymentRequest := mkPaymentRequest {
  get_amount : pyval;
  get_outputs : pyval;
  get_memo : pyval;
  get_id : pyval;
  get_time : Z;
  get_expiration_date : Z;
  raw : list Byte.byte;
  get_requestor : pyval }.

(** ** A sample wallet

    Concrete collaborators, on which the model can be run: Ravencoin's
    constants, a codec that knows three invoice strings (the second without
    an amount and with the expiry that stands for never, the third for less
    than a millisatoshi), legacy tuples of three positions, untranslated
    labels. *)
Module Sample.

Definition COIN : Z := 100000000.
Definition TOTAL_COIN_SUPPLY_LIMIT_IN_BTC : Z := 21000000000.

Definition RavenValue_from_json (d : list (string * pyval)) : option RavenValue :=
  match d with
  | [("RVN", v)] => RavenValue_of_int <$> as_int v
  | _ => None
  end.

Definition RavenValue_bool (_ : RavenValue) : bool := true.

Definition from_legacy_tuple (args : list pyval) : option PartialTxOutput :=
  match args with
  | [PyInt 0; PyStr addr; PyInt sat] => Some (mkOutput addr (OutExact sat))
  | [PyInt 0; PyStr addr; PyStr "!"] => Some (mkOutput addr OutMax)
  | _ => None
  end.

Record LnAddr := mkLnAddr {
  amount : option Q;
  expiry : Z;
  timestamp : Z;
  description : string;
  payment_hash : string }.

Definition coffee : LnAddr :=
  mkLnAddr (Some (25 # 10000)) 3600 1700000000 "coffee" "0001".

Definition donation : LnAddr :=
  mkLnAddr None 3153600000 1700000000 "donation" "0002".

(** A tenth of a millisatoshi. *)
Definition dust : LnAddr :=
  mkLnAddr (Some (1 # 1000000000000)) 3600 1700000000 "dust" "0003".

Definition lndecode (v : pyval) : option LnAddr :=
  match v with
  | PyStr s =>
      if String.eqb s "lnbc2500u1coffee" then Some coffee
      else if String.eqb s "lnbc1donation" then Some donation
      else if String.eqb s "lnbc1p1dust" then Some dust
      else None
  | _ => None
  end.

(** Rounding to 28 significant digits, half to even: the number of digits
    of the integer part, the exponent [e] of the last digit kept, the
    quotient at that exponent, and its rounding. *)
Fixpoint digits (fuel : nat) (n : Z) : Z :=
  match fuel with
  | O => 0
  | S fuel => if n =? 0 then 0 else 1 + digits fuel (Z.quot n 10)
  end.

Definition context_round (q : Q) : Q :=
  let n := Z.abs (Qnum q) in
  let d := Zpos (Qden q) in
  if n =? 0 then q
  else
    let size m := digits (S (Z.to_nat (Z.log2 m))) m in
    let g := size n - size d in
    let adjusted := if g <? 0
                    then (if d <=? n * 10 ^ (- g) then g else g - 1)
                    else (if d * 10 ^ g <=? n then g else g - 1) in
    let e := adjusted - 27 in
    let num := if e <? 0 then n * 10 ^ (- e) else n in
    let den := if e <? 0 then d else d * 10 ^ e in
    let c := num / den in
    let r := num mod den in
    let c := if (den <? 2 * r) || ((den =? 2 * r) && Z.odd c) then c + 1 else c in
    let c := Z.sgn (Qnum q) * c in
    if e <? 0 then Qmake c (Z.to_pos (10 ^ (- e))) else inject_Z (c * 10 ^ e).

(** The sample wallet builds no [Decimal] from text. *)
Definition Decimal_from (v : pyval) : result Q := Raise ForeignError.

Definition RavenValue_of_Satoshis (d : Q) : RavenValue := mkRavenValue d.

Definition get_amount_msat (a : LnAddr) : pyval :=
  match amount a with
  | Some d => PyInt (Qtruncate (d * inject_Z COIN * inject_Z 1000))
  | None => PyNone
  end.

Definition gettext (s : string) : string := s.

Definition age (from_date : Z) : string := "until " +:+ pretty from_date.

(** An on-chain record, but for its amount. *)
Definition onchain_record (amount_sat : pyval) : gmap string pyval :=
  list_to_map
    [("type", PyInt PR_TYPE_ONCHAIN); ("message", PyStr "rent");
     ("amount_sat", amount_sat); ("exp", PyInt 0); ("time", PyInt 1700000000);
     ("id", PyStr "a1b2c3"); ("outputs", PyList [PyTxOutput (mkOutput "RAddr" OutMax)]);
     ("bip70", PyNone); ("requestor", PyNone); ("height", PyInt 120)].

(** A lightning record, but for its string and its fallback amount. *)
Definition ln_record (invoice amount_msat : pyval) : gmap string pyval :=
  list_to_map
    [("type", PyInt PR_TYPE_LN); ("invoice", invoice); ("amount_msat", amount_msat)].

(** A decoded request for 5000 units, valid for an hour. *)
Definition payment_request : PaymentRequest :=
  mkPaymentRequest (PyInt 5000)
    (PyList [PyTuple [PyInt 0; PyStr "RMerchant"; PyInt 5000]])
    (PyStr "two tickets") (PyStr "f00d") 1700000000 1700003600
    [Byte.x0a; Byte.x1f; Byte.xff] (PyStr "shop.example").

End Sample.

Section Invoices.

Set Default Proof Using "Type".

(** ** External collaborators

    Everything below is imported by the module from the rest of the wallet
    and is taken as given.  A function that can raise returns [None] when it
    does. *)

(** [.ravencoin]: the two constants of the supply ceiling. *)
Variables COIN TOTAL_COIN_SUPPLY_LIMIT_IN_BTC : Z.

(** [RavenValue.from_json(d)], and the truth value Python gives a
    [RavenValue] in a boolean context. *)
Variable RavenValue_from_json : list (string * pyval) -> option RavenValue.
Variable RavenValue_bool : RavenValue -> bool.

(** [PartialTxOutput.from_legacy_tuple( *args)]. *)
Variable from_legacy_tuple : list pyval -> option PartialTxOutput.

(** [.lnaddr]: the decoded form of a BOLT-11 string, the codec, and what the
    module reads from a decoded invoice. *)
Variable LnAddr : Type.
Variable lndecode : pyval -> option LnAddr.
Variable LnAddr_amount : LnAddr -> option Q.          (* .amount: a Decimal or None *)
Variable LnAddr_get_amount_msat : LnAddr -> pyval.    (* .get_amount_msat() *)
Variable get_expiry : LnAddr -> Z.                    (* .get_expiry() *)
Variable date : LnAddr -> Z.                          (* .date *)
Variable get_description : LnAddr -> string.          (* .get_description() *)
Variable paymenthash_hex : LnAddr -> string.          (* .paymenthash.hex() *)

(** [.i18n._] and [.util.age(from_date, include_seconds=True)], the latter at
    the instant of the call. *)
Variable gettext : string -> string.
Variable age : Z -> string.

(** Python's [decimal]: what the default context returns for a result it
    cannot hold exactly, which is that result rounded to 28 digits; and
    [Decimal(v)] for a string or a sequence [v].  A result beyond the
    exponents of the context, [10^999999] and more, is not considered. *)
Variable context_round : Q -> Q.
Variable Decimal_from : pyval -> result Q.

(** [RavenValue(Satoshis(d))] for a [Decimal] [d], of [.transaction] and
    [.util]. *)
Variable RavenValue_of_Satoshis : Q -> RavenValue.

(** Truth value of any value: [x or y] and [if x]. *)
Definition truthy (v : pyval) : bool :=
  match v with
  | PyRavenValue r => RavenValue_bool r
  | _ => builtin_truthy v
  end.

(** ** [_decode_outputs] *)

(** The body of the loop: what one entry contributes to [ret]. *)
Definition decode_entry (output : pyval) : option PartialTxOutput :=
  match output with
  | PyTxOutput o => Some o                 (* isinstance(output, PartialTxOutput) *)
  | _ =>
      match py_iter output with            (* from_legacy_tuple( *output) *)
      | Some args => from_legacy_tuple args
      | None => None                       (* not iterable: caught by the bare except *)
      end
  end.

Definition _decode_outputs (outputs : list pyval) : list PartialTxOutput :=
  fold_left
    (fun ret output =>
       match decode_entry output with
       | Some o => (ret ++ [o])%list
       | None => ret                       (* continue *)
       end)
    outputs [].

(** The converter of the [outputs] attribute: the [for] statement raises
    when its argument cannot be iterated. *)
Definition outputs_converter (v : pyval) : result (list PartialTxOutput) :=
  match py_iter v with
  | Some entries => Ok (_decode_outputs entries)
  | None => Raise TypeError
  end.

(** ** [OnchainInvoice] *)

Record OnchainInvoice := mkOnchain {
  onchain_type : pyval;
  onchain_message : pyval;
  amount_sat : pyval;
  onchain_exp : Z;
  onchain_time : Z;
  onchain_id : pyval;
  outputs : list PartialTxOutput;
  bip70 : pyval;
  requestor : pyval;
  height : Z }.

Definition OnchainInvoice_params : list string :=
  ["type"; "message"; "amount_sat"; "exp"; "time"; "id"; "outputs"; "bip70";
   "requestor"; "height"].

(** [attr.validators.instance_of(int)]. *)
Definition instance_of_int (v : pyval) : result Z :=
  match as_int v with
  | Some z => Ok z
  | None => Raise TypeError
  end.

(** [OnchainInvoice._validate_amount]: the result is the value the attribute
    holds when the validator returns. *)
Definition OnchainInvoice_validate_amount (value : pyval) : result pyval :=
  value <-!
    match as_int value with
    | Some n => Ok (PyRavenValue (RavenValue_of_int n))   (* isinstance(value, int) *)
    | None =>
        match value with
        | PyDict d =>                                     (* isinstance(value, Dict) *)
            match RavenValue_from_json d with
            | Some r => Ok (PyRavenValue r)
            | None => Raise ForeignError
            end
        | _ => Ok value
        end
    end ;
  match value with
  | PyRavenValue r =>
      if Qle_bool (inject_Z 0) (rvn_value r)
         && Qle_bool (rvn_value r) (inject_Z (TOTAL_COIN_SUPPLY_LIMIT_IN_BTC * COIN))
      then Ok value
      else Raise (InvoiceError "amount is out-of-bounds")
  | PyStr s =>
      if String.eqb s "!" then Ok value
      else Raise (InvoiceError "unexpected amount")
  | _ => Raise (InvoiceError "unexpected amount")
  end.

(** The generated [__init__]: bind the keywords, assign the attributes
    (running the converter of [outputs]), then run the validators in the
    order the attributes are declared. *)
Definition OnchainInvoice_init (x : gmap string pyval) : result OnchainInvoice :=
  bind_kwargs OnchainInvoice_params x ;;!
  outs <-! outputs_converter (arg x "outputs") ;
  amount <-! OnchainInvoice_validate_amount (arg x "amount_sat") ;
  e <-! instance_of_int (arg x "exp") ;
  t <-! instance_of_int (arg x "time") ;
  h <-! instance_of_int (arg x "height") ;
  Ok {| onchain_type := arg x "type";
        onchain_message := arg x "message";
        amount_sat := amount;
        onchain_exp := e;
        onchain_time := t;
        onchain_id := arg x "id";
        outputs := outs;
        bip70 := arg x "bip70";
        requestor := arg x "requestor";
        height := h |}.

(** [self.outputs[0].address] *)
Definition OnchainInvoice_get_address (self : OnchainInvoice) : result string :=
  match outputs self with
  | o :: _ => Ok (address o)
  | [] => Raise IndexError
  end.

(** [self.amount_sat or RavenValue()] *)
Definition OnchainInvoice_get_amount_sat (self : OnchainInvoice) : pyval :=
  if truthy (amount_sat self) then amount_sat self
  else PyRavenValue RavenValue_default.

(** ** Mutable objects

    A method that may write to [self] is a function of the state it runs
    in; an exception leaves the state as it was when it was raised. *)
Definition M (S A : Type) : Type := S -> result A * S.

Definition ret {S A} (a : A) : M S A := fun s => (Ok a, s).

Definition bind {S A B} (m : M S A) (k : A -> M S B) : M S B :=
  fun s =>
    match m s with
    | (Ok a, s') => k a s'
    | (Raise e, s') => (Raise e, s')
    end.

Definition lift {S A} (r : result A) : M S A := fun s => (r, s).

Notation "x <- m ;; k" := (bind m (fun x => k))
  (at level 100, m at next level, right associativity).

(** ** [LNInvoice] *)

Record LNInvoice := mkLN {
  ln_type : pyval;
  invoice : pyval;
  amount_msat : pyval;
  __lnaddr : option LnAddr }.

Definition LNInvoice_params : list string := ["type"; "invoice"; "amount_msat"].

(** [LNInvoice._validate_invoice_str]: the codec is run for its exception. *)
Definition LNInvoice_validate_invoice_str (value : pyval) : result unit :=
  match lndecode value with
  | Some _ => Ok tt
  | None => Raise ForeignError
  end.

(** [LNInvoice._validate_amount] *)
Definition LNInvoice_validate_amount (value : pyval) : result unit :=
  match value with
  | PyNone => Ok tt
  | _ =>
      match as_int value with
      | Some n =>
          if (0 <=? n) && (n <=? TOTAL_COIN_SUPPLY_LIMIT_IN_BTC * COIN * 1000)
          then Ok tt
          else Raise (InvoiceError "amount is out-of-bounds")
      | None => Raise (InvoiceError "unexpected amount")
      end
  end.

(** The generated [__init__]; [__lnaddr] is the class attribute [None] until
    the first decode. *)
Definition LNInvoice_init (x : gmap string pyval) : result LNInvoice :=
  bind_kwargs LNInvoice_params x ;;!
  LNInvoice_validate_invoice_str (arg x "invoice") ;;!
  LNInvoice_validate_amount (arg x "amount_msat") ;;!
  Ok {| ln_type := arg x "type";
        invoice := arg x "invoice";
        amount_msat := arg x "amount_msat";
        __lnaddr := None |}.

(** [LNInvoice.from_bech32]: a failure of the codec is re-raised as an
    [InvoiceError] carrying it. *)
Definition LNInvoice_from_bech32 (inv : pyval) : result LNInvoice :=
  match lndecode inv with
  | None => Raise (InvoiceError "")
  | Some lnaddr =>
      LNInvoice_init
        (<["type" := PyInt PR_TYPE_LN]>
           (<["invoice" := inv]>
              (<["amount_msat" := LnAddr_get_amount_msat lnaddr]> ∅)))
  end.

(** The state of a lightning invoice in use: the object, and the number of
    times its accessors have run the codec. *)
Definition ln_world : Type := LNInvoice * nat.

(** The property [_lnaddr] *)
Definition LNInvoice_lnaddr : M ln_world LnAddr :=
  fun w =>
    let self := fst w in
    match __lnaddr self with
    | Some a => (Ok a, w)
    | None =>
        match lndecode (invoice self) with
        | Some a =>
            (Ok a, ({| ln_type := ln_type self; invoice := invoice self;
                       amount_msat := amount_msat self; __lnaddr := Some a |},
                    S (snd w)))
        | None => (Raise ForeignError, (self, S (snd w)))
        end
    end.

Definition self_amount_msat : M ln_world pyval := fun w => (Ok (amount_msat (fst w)), w).

Definition LNInvoice_rhash : M ln_world string :=
  a <- LNInvoice_lnaddr ;; ret (paymenthash_hex a).

(** The result of a product or a quotient of [Decimal]s whose exact value
    is [q]. *)
Definition Decimal_fix (q : Q) : Q :=
  if context_holds q then q else context_round q.

(** [d * n] for a [Decimal] and an int, which is converted exactly. *)
Definition Decimal_mul_int (d : Q) (n : Z) : Q := Decimal_fix (d * inject_Z n).

(** [d / n] for a [Decimal] and a non-zero int. *)
Definition Decimal_div_int (d : Q) (n : Z) : Q := Decimal_fix (d / inject_Z n).

(** The local variable [amount] of [get_amount_msat]:
    [int(amount_btc * COIN * 1000) if amount_btc else None]. *)
Definition encoded_amount (a : LnAddr) : option Z :=
  match LnAddr_amount a with
  | Some amount_btc =>
      if Qeq_bool amount_btc (inject_Z 0) then None
      else Some (Qtruncate (Decimal_mul_int (Decimal_mul_int amount_btc COIN) 1000))
  | None => None
  end.

Definition LNInvoice_get_amount_msat : M ln_world pyval :=
  a <- LNInvoice_lnaddr ;;
  match encoded_amount a with
  | Some amount => if amount =? 0 then self_amount_msat else ret (PyInt amount)
  | None => self_amount_msat
  end.

(** [Decimal(v)]: exact for an int, a bool and a float; a string or a
    sequence is converted by the constructor; anything else is a
    [TypeError]. *)
Definition to_Decimal (v : pyval) : result Q :=
  match v with
  | PyFloat q => Ok q
  | PyStr _ | PyList _ | PyTuple _ => Decimal_from v
  | _ => match as_int v with
         | Some n => Ok (inject_Z n)
         | None => Raise TypeError
         end
  end.

Definition LNInvoice_get_amount_sat : M ln_world pyval :=
  amount_msat <- LNInvoice_get_amount_msat ;;
  match amount_msat with
  | PyNone => ret PyNone
  | _ =>
      d <- lift (to_Decimal amount_msat) ;;
      ret (PyRavenValue (RavenValue_of_Satoshis (Decimal_div_int d 1000)))
  end.

Definition LNInvoice_exp : M ln_world Z :=
  a <- LNInvoice_lnaddr ;; ret (get_expiry a).

Definition LNInvoice_time : M ln_world Z :=
  a <- LNInvoice_lnaddr ;; ret (date a).

Definition LNInvoice_message : M ln_world string :=
  a <- LNInvoice_lnaddr ;; ret (get_description a).

(** ** [Invoice] *)

Inductive Invoice :=
| Onchain (o : OnchainInvoice)
| Lightning (l : LNInvoice).

Definition world : Type := Invoice * nat.

(** Attribute lookup on [self]: the stored field of an on-chain invoice, the
    property of a lightning one. *)
Definition dispatch {A} (stored : OnchainInvoice -> result A) (property : M ln_world A)
  : M world A :=
  fun w =>
    match fst w with
    | Onchain o => (stored o, w)
    | Lightning l =>
        let '(r, w') := property (l, snd w) in (r, (Lightning (fst w'), snd w'))
    end.

Definition Invoice_exp : M world Z := dispatch (fun o => Ok (onchain_exp o)) LNInvoice_exp.
Definition Invoice_time : M world Z := dispatch (fun o => Ok (onchain_time o)) LNInvoice_time.

Definition Invoice_type (self : Invoice) : pyval :=
  match self with
  | Onchain o => onchain_type o
  | Lightning l => ln_type l
  end.

Definition is_lightning (self : Invoice) : bool := py_eq_int (Invoice_type self) PR_TYPE_LN.

Definition get_amount_sat : M world pyval :=
  dispatch (fun o => Ok (OnchainInvoice_get_amount_sat o)) LNInvoice_get_amount_sat.

Definition pr_tooltips : gmap Z string :=
  list_to_map
    [(PR_UNPAID, gettext "Unpaid");
     (PR_PAID, gettext "Paid");
     (PR_UNKNOWN, gettext "Unknown");
     (PR_EXPIRED, gettext "Expired");
     (PR_INFLIGHT, gettext "In progress");
     (PR_FAILED, gettext "Failed");
     (PR_ROUTING, gettext "Computing route...");
     (PR_UNCONFIRMED, gettext "Unconfirmed")].

(** [pr_tooltips[status]] *)
Definition tooltip (status : Z) : result string :=
  match pr_tooltips !! status with
  | Some s => Ok s
  | None => Raise KeyError
  end.

Definition get_status_str (status : Z) : M world string :=
  status_str <- lift (tooltip status) ;;
  if status =? PR_UNPAID then
    e <- Invoice_exp ;;
    if e >? 0 then
      e' <- Invoice_exp ;;
      if negb (e' =? LN_EXPIRY_NEVER) then
        e'' <- Invoice_exp ;;
        t <- Invoice_time ;;
        let expiration := e'' + t in
        ret (gettext "Expires" +:+ " " +:+ age expiration)
      else ret status_str
    else ret status_str
  else ret status_str.

(** [Invoice.from_json]; [x.get('type')] is [None] when the key is absent. *)
Definition from_json (x : gmap string pyval) : result Invoice :=
  if py_eq_int (arg x "type") PR_TYPE_LN
  then rmap Lightning (LNInvoice_init x)
  else rmap Onchain (OnchainInvoice_init x).

(** ** The properties, in the words of the specification *)

(** Output normalisation: canonical entries are kept as they are, legacy
    entries are converted from their unpacked positions, entries that do not
    convert are left out, and the entries are visited in order. *)
Definition is_canonical (e : pyval) : bool :=
  match e with
  | PyTxOutput _ => true
  | _ => false
  end.

Inductive normalizes : list pyval -> list PartialTxOutput -> Prop :=
| normalizes_nil :
    normalizes [] []
| normalizes_canonical o entries ret :
    normalizes entries ret ->
    normalizes (PyTxOutput o :: entries) (o :: ret)
| normalizes_legacy e args o entries ret :
    is_canonical e = false ->
    py_iter e = Some args ->
    from_legacy_tuple args = Some o ->
    normalizes entries ret ->
    normalizes (e :: entries) (o :: ret)
| normalizes_dropped e entries ret :
    is_canonical e = false ->
    (forall args, py_iter e = Some args -> from_legacy_tuple args = None) ->
    normalizes entries ret ->
    normalizes (e :: entries) ret.

(** The supply ceiling, in the smallest on-chain unit. *)
Definition ceiling : Z := TOTAL_COIN_SUPPLY_LIMIT_IN_BTC * COIN.

Definition within (q : Q) (bound : Z) : Prop :=
  (inject_Z 0 <= q)%Q /\ (q <= inject_Z bound)%Q.

(** The representations an on-chain amount may come in, and the number a
    numeric one stands for. *)
Definition onchain_amount_recognized (v : pyval) : bool :=
  match v with
  | PyInt _ | PyBool _ | PyDict _ | PyRavenValue _ => true
  | PyStr s => String.eqb s "!"
  | _ => false
  end.

Definition onchain_amount_number (v : pyval) : option Q :=
  match v with
  | PyRavenValue r => Some (rvn_value r)
  | PyDict d => rvn_value <$> RavenValue_from_json d
  | _ => inject_Z <$> as_int v
  end.

Definition onchain_amount_invalid (v : pyval) : Prop :=
  onchain_amount_recognized v = false
  \/ exists q, onchain_amount_number v = Some q /\ ~ within q ceiling.

(** The same for the fallback amount of a lightning invoice. *)
Definition ln_amount_recognized (v : pyval) : bool :=
  match v with
  | PyNone | PyInt _ | PyBool _ => true
  | _ => false
  end.

Definition ln_amount_invalid (v : pyval) : Prop :=
  ln_amount_recognized v = false
  \/ exists n, as_int v = Some n /\ ~ (0 <= n <= ceiling * 1000).

(** The fields of an on-chain record other than the amount are valid: the
    keywords are the declared ones, [outputs] can be iterated, and [exp],
    [time] and [height] are ints. *)
Definition onchain_fields_valid (x : gmap string pyval) : Prop :=
  bind_kwargs OnchainInvoice_params x = Ok tt
  /\ is_Some (py_iter (arg x "outputs"))
  /\ is_Some (as_int (arg x "exp"))
  /\ is_Some (as_int (arg x "time"))
  /\ is_Some (as_int (arg x "height")).

(** The fields of a lightning record other than the amount are valid: the
    keywords are the declared ones and the invoice string decodes. *)
Definition ln_fields_valid (x : gmap string pyval) : Prop :=
  bind_kwargs LNInvoice_params x = Ok tt
  /\ is_Some (lndecode (arg x "invoice")).

(** The amount the decoded string carries, in millisatoshi. *)
Definition encoded_msat (a : LnAddr) : option Z :=
  (fun amount_btc => Qtruncate (amount_btc * inject_Z COIN * inject_Z 1000))
    <$> LnAddr_amount a.

(** The decoded amount is one the context computes with exactly: times
    [COIN], and times 1000 again, it has at most 28 digits. *)
Definition amount_held (a : LnAddr) : Prop :=
  forall amount_btc,
    LnAddr_amount a = Some amount_btc ->
    context_holds (amount_btc * inject_Z COIN) = true
    /\ context_holds (amount_btc * inject_Z COIN * inject_Z 1000) = true.

(** What [_lnaddr] evaluates to on an object, whether or not it is cached. *)
Definition lnaddr_view (self : LNInvoice) : option LnAddr :=
  match __lnaddr self with
  | Some a => Some a
  | None => lndecode (invoice self)
  end.

(** A lightning invoice as construction leaves it and as its accessors keep
    it: the string decodes to [a], the cache is empty or holds [a], and the
    fallback amount has passed its validator. *)
Definition LNInvoice_valid (self : LNInvoice) (a : LnAddr) : Prop :=
  lndecode (invoice self) = Some a
  /\ (__lnaddr self = None \/ __lnaddr self = Some a)
  /\ LNInvoice_validate_amount (amount_msat self) = Ok tt.

(** The derived accessors of a lightning invoice, and a run of calls on one
    object. *)
Inductive accessor := Amessage | Atime | Aexp | Arhash | Aget_amount_msat.

Definition call (f : accessor) : M ln_world pyval :=
  match f with
  | Amessage => s <- LNInvoice_message ;; ret (PyStr s)
  | Atime => t <- LNInvoice_time ;; ret (PyInt t)
  | Aexp => e <- LNInvoice_exp ;; ret (PyInt e)
  | Arhash => h <- LNInvoice_rhash ;; ret (PyStr h)
  | Aget_amount_msat => LNInvoice_get_amount_msat
  end.

Fixpoint run (calls : list accessor) (w : ln_world) : list (result pyval) * ln_world :=
  match calls with
  | [] => ([], w)
  | f :: calls =>
      let '(r, w') := call f w in
      let '(rs, w'') := run calls w' in
      (r :: rs, w'')
  end.

(** What [self.exp] and [self.time] evaluate to on an invoice. *)
Definition exp_view (self : Invoice) : option Z :=
  match self with
  | Onchain o => Some (onchain_exp o)
  | Lightning l => get_expiry <$> lnaddr_view l
  end.

Definition time_view (self : Invoice) : option Z :=
  match self with
  | Onchain o => Some (onchain_time o)
  | Lightning l => date <$> lnaddr_view l
  end.

(** The variant a JSON record selects. *)
Definition selects_lightning (x : gmap string pyval) : Prop :=
  exists v, x !! "type" = Some v /\ py_eq_int v PR_TYPE_LN = true.

Definition selected_params (x : gmap string pyval) : list string :=
  if py_eq_int (arg x "type") PR_TYPE_LN then LNInvoice_params else OnchainInvoice_params.

(** [OnchainInvoice.from_bip70_payreq] *)
Definition from_bip70_payreq (pr : PaymentRequest) (height : pyval) : result OnchainInvoice :=
  OnchainInvoice_init
    (list_to_map
       [("type", PyInt PR_TYPE_ONCHAIN);
        ("amount_sat", get_amount pr);
        ("outputs", get_outputs pr);
        ("message", get_memo pr);
        ("id", get_id pr);
        ("time", PyInt (get_time pr));
        ("exp", PyInt (get_expiration_date pr - get_time pr));
        ("bip70", PyStr (bytes_hex (raw pr)));
        ("requestor", get_requestor pr);
        ("height", height)]).

(** The object once the decoded form [a] is in its cache, the number of
    codec calls the next access costs, and what each accessor returns on an
    invoice whose string decodes to [a]. *)
Definition cached (self : LNInvoice) (a : LnAddr) : LNInvoice :=
  mkLN (ln_type self) (invoice self) (amount_msat self) (Some a).

Definition miss (self : LNInvoice) : nat :=
  match __lnaddr self with
  | Some _ => 0
  | None => 1
  end.

Definition amount_value (self : LNInvoice) (a : LnAddr) : pyval :=
  match encoded_amount a with
  | Some amount => if amount =? 0 then amount_msat self else PyInt amount
  | None => amount_msat self
  end.

Definition accessor_value (f : accessor) (self : LNInvoice) (a : LnAddr) : pyval :=
  match f with
  | Amessage => PyStr (get_description a)
  | Atime => PyInt (date a)
  | Aexp => PyInt (get_expiry a)
  | Arhash => PyStr (paymenthash_hex a)
  | Aget_amount_msat => amount_value self a
  end.

(** * Theorems *)

(** Case analysis on a test [(lo <=? n) && (n <=? hi)]: the bounds as
    hypotheses when it holds. *)
Ltac bound_test :=
  let Hb := fresh "Hb" in
  destruct (_ && _) eqn:Hb;
  [apply andb_true_iff in Hb as [?%Z.leb_le ?%Z.leb_le]|].

(** ** Output normalisation *)

Lemma decode_loop_app (outputs : list pyval) (ret : list PartialTxOutput) :
  fold_left
    (fun ret output =>
       match decode_entry output with
       | Some o => (ret ++ [o])%list
       | None => ret
       end)
    outputs ret
  = (ret ++ omap decode_entry outputs)%list.
Proof.
  revert ret. induction outputs as [|e outputs IH]; intros ret; simpl.
  - by rewrite app_nil_r.
  - rewrite IH. destruct (decode_entry e) as [o|]; [|done].
    by rewrite <- app_assoc.
Qed.

Lemma decode_outputs_omap (outputs : list pyval) :
  _decode_outputs outputs = omap decode_entry outputs.
Proof. unfold _decode_outputs. by rewrite decode_loop_app. Qed.

Lemma decode_entry_noncanonical (e : pyval) :
  is_canonical e = false ->
  decode_entry e = py_iter e ≫= from_legacy_tuple.
Proof. by destruct e. Qed.

Lemma normalizes_omap (outputs : list pyval) (ret : list PartialTxOutput) :
  normalizes outputs ret -> ret = omap decode_entry outputs.
Proof.
  induction 1 as [|o entries ret _ IH|e args o entries ret Hc Hi Hf _ IH
                 |e entries ret Hc Hf _ IH]; simpl.
  - done.
  - by rewrite IH.
  - rewrite (decode_entry_noncanonical e Hc), Hi. simpl. by rewrite Hf, IH.
  - rewrite (decode_entry_noncanonical e Hc).
    destruct (py_iter e) as [args|] eqn:Hi; simpl; [|done].
    by rewrite (Hf args eq_refl).
Qed.

Lemma omap_normalizes (outputs : list pyval) :
  normalizes outputs (omap decode_entry outputs).
Proof.
  induction outputs as [|e outputs IH]; simpl; [constructor|].
  destruct (is_canonical e) eqn:Hc.
  - destruct e; try discriminate. simpl. by constructor.
  - rewrite (decode_entry_noncanonical e Hc).
    destruct (py_iter e) as [args|] eqn:Hi; simpl.
    + destruct (from_legacy_tuple args) as [o|] eqn:Hf.
      * by eapply normalizes_legacy.
      * apply normalizes_dropped; [done| |done].
        intros args' Hi'. rewrite Hi in Hi'. by injection Hi' as <-.
    + apply normalizes_dropped; [done| |done].
      intros args' Hi'. by rewrite Hi in Hi'.
Qed.

Lemma omap_image_of_sublist (outputs : list pyval) :
  exists kept,
    kept `sublist_of` outputs
    /\ Forall2 (fun e o => decode_entry e = Some o) kept (omap decode_entry outputs).
Proof.
  induction outputs as [|e outputs (kept & Hs & Hf)]; simpl.
  - exists []. split; constructor.
  - destruct (decode_entry e) as [o|] eqn:He.
    + exists (e :: kept). split; [by constructor|by constructor].
    + exists kept. split; [by constructor|done].
Qed.

Lemma omap_no_longer (outputs : list pyval) :
  (length (omap decode_entry outputs) <= length outputs)%nat.
Proof.
  induction outputs as [|e outputs IH]; [done|].
  change (omap decode_entry (e :: outputs))
    with (match decode_entry e with
          | Some o => o :: omap decode_entry outputs
          | None => omap decode_entry outputs
          end).
  destruct (decode_entry e); simpl length; lia.
Qed.

(** C8: [_decode_outputs] keeps each canonical entry as it is, converts each
    legacy entry from its unpacked positions, leaves out every entry whose
    conversion fails, and visits the entries in order: the result is the
    one normalisation of the input, it is the entry-wise image of a
    sub-sequence of the input, and it is never longer than the input. *)
Theorem decode_outputs_normalizes (outputs : list pyval) :
  normalizes outputs (_decode_outputs outputs)
  /\ (forall ret, normalizes outputs ret -> ret = _decode_outputs outputs)
  /\ (exists kept,
        kept `sublist_of` outputs
        /\ Forall2 (fun e o => decode_entry e = Some o) kept (_decode_outputs outputs))
  /\ (length (_decode_outputs outputs) <= length outputs)%nat.
Proof.
  rewrite decode_outputs_omap. repeat split.
  - apply omap_normalizes.
  - apply normalizes_omap.
  - apply omap_image_of_sublist.
  - apply omap_no_longer.
Qed.

(** ** Amount validation *)

Lemma within_test (q : Q) (bound : Z) :
  Qle_bool (inject_Z 0) q && Qle_bool q (inject_Z bound) = true <-> within q bound.
Proof.
  unfold within. by rewrite andb_true_iff, !Qle_bool_iff.
Qed.

Lemma not_within_test (q : Q) (bound : Z) :
  ~ within q bound ->
  Qle_bool (inject_Z 0) q && Qle_bool q (inject_Z bound) = false.
Proof.
  intros Hout. apply not_true_is_false. by rewrite within_test.
Qed.

Lemma within_inject_Z (n bound : Z) :
  within (inject_Z n) bound <-> 0 <= n <= bound.
Proof. unfold within. by rewrite <- !Zle_Qle. Qed.

Lemma onchain_validator_rejects (v : pyval) :
  onchain_amount_invalid v ->
  is_InvoiceError (OnchainInvoice_validate_amount v).
Proof.
  unfold OnchainInvoice_validate_amount, is_InvoiceError.
  intros [Hrep | (q & Hq & Hout)].
  - destruct v; simpl in Hrep; try discriminate; simpl; eauto.
    rewrite Hrep. eauto.
  - destruct v; simpl in Hq; try discriminate; simpl.
    + injection Hq as <-. rewrite not_within_test by done. eauto.
    + injection Hq as <-. rewrite not_within_test by done. eauto.
    + destruct (RavenValue_from_json d) as [r|]; [|discriminate].
      injection Hq as <-. simpl. rewrite not_within_test by done. eauto.
    + injection Hq as <-. rewrite not_within_test by done. eauto.
Qed.

Lemma ln_validator_rejects (v : pyval) :
  ln_amount_invalid v ->
  is_InvoiceError (LNInvoice_validate_amount v).
Proof.
  unfold LNInvoice_validate_amount, is_InvoiceError.
  intros [Hrep | (n & Hn & Hout)].
  - destruct v; simpl in Hrep; try discriminate; simpl; eauto.
  - unfold ceiling in Hout.
    destruct v; simpl in Hn; try discriminate; injection Hn as <-; simpl.
    + bound_test; [lia|eauto].
    + bound_test; [lia|eauto].
Qed.

(** C1: an amount in a representation the validator does not know, or a
    numeric amount outside [0, ceiling] (outside [0, ceiling * 1000] for the
    fallback amount of a lightning invoice), makes the construction raise
    [InvoiceError], and no invoice results.  The error is [InvoiceError]
    when the amount is the field at fault, that is, when the constructor
    reaches the amount validator: the keywords bind, the outputs can be
    iterated, the invoice string decodes.  Whatever the other fields are,
    the construction returns no invoice. *)
Theorem invalid_amount_raises_InvoiceError :
  (forall x : gmap string pyval,
      bind_kwargs OnchainInvoice_params x = Ok tt ->
      is_Some (py_iter (arg x "outputs")) ->
      onchain_amount_invalid (arg x "amount_sat") ->
      is_InvoiceError (OnchainInvoice_init x))
  /\ (forall x : gmap string pyval,
      ln_fields_valid x ->
      ln_amount_invalid (arg x "amount_msat") ->
      is_InvoiceError (LNInvoice_init x))
  /\ (forall (x : gmap string pyval) inv,
      onchain_amount_invalid (arg x "amount_sat") ->
      OnchainInvoice_init x <> Ok inv)
  /\ (forall (x : gmap string pyval) self,
      ln_amount_invalid (arg x "amount_msat") ->
      LNInvoice_init x <> Ok self).
Proof.
  split; [|split; [|split]].
  - intros x Hbind [entries Hiter] Hbad.
    destruct (onchain_validator_rejects _ Hbad) as [msg Hmsg].
    exists msg. unfold OnchainInvoice_init, outputs_converter.
    rewrite Hbind, Hiter. simpl. by rewrite Hmsg.
  - intros x [Hbind [a Hdec]] Hbad.
    destruct (ln_validator_rejects _ Hbad) as [msg Hmsg].
    exists msg. unfold LNInvoice_init, LNInvoice_validate_invoice_str.
    rewrite Hbind, Hdec. simpl. by rewrite Hmsg.
  - intros x inv Hbad.
    destruct (onchain_validator_rejects _ Hbad) as [msg Hmsg].
    unfold OnchainInvoice_init.
    destruct (bind_kwargs _ _) as [[]|]; [|done]. simpl.
    destruct (outputs_converter _); [|done]. simpl. by rewrite Hmsg.
  - intros x self Hbad.
    destruct (ln_validator_rejects _ Hbad) as [msg Hmsg].
    unfold LNInvoice_init.
    destruct (bind_kwargs _ _) as [[]|]; [|done]. simpl.
    destruct (LNInvoice_validate_invoice_str _) as [[]|]; [|done]. simpl.
    by rewrite Hmsg.
Qed.

(** ** On-chain amounts *)

Lemma onchain_init_valid_fields (x : gmap string pyval) :
  onchain_fields_valid x ->
  exists entries e t h,
    py_iter (arg x "outputs") = Some entries
    /\ OnchainInvoice_init x =
       (amount <-! OnchainInvoice_validate_amount (arg x "amount_sat") ;
        Ok (mkOnchain (arg x "type") (arg x "message") amount e t (arg x "id")
              (_decode_outputs entries) (arg x "bip70") (arg x "requestor") h)).
Proof.
  intros (Hbind & [entries Hiter] & [e He] & [t Ht] & [h Hh]).
  exists entries, e, t, h. split; [done|].
  unfold OnchainInvoice_init, outputs_converter, instance_of_int.
  rewrite Hbind, Hiter, He, Ht, Hh. simpl.
  by destruct (OnchainInvoice_validate_amount _).
Qed.

Lemma onchain_validator_accepts_int (a : Z) :
  0 <= a <= ceiling ->
  OnchainInvoice_validate_amount (PyInt a) = Ok (PyRavenValue (RavenValue_of_int a)).
Proof.
  intros Ha. unfold OnchainInvoice_validate_amount.
  cbn [rbind as_int RavenValue_of_int rvn_value].
  pose proof (proj2 (within_test _ _) (proj2 (within_inject_Z _ _) Ha)) as Hb.
  unfold ceiling in Hb. by rewrite Hb.
Qed.

(** C2: for every integer [a] with [0 <= a <= ceiling], the construction of
    an on-chain invoice with [amount_sat = a] and valid other fields
    succeeds, and [get_amount_sat()] returns a monetary value whose count is
    [a], the bounds [0] and [ceiling] included; the call leaves the object
    as it is.  A [RavenValue] is taken to be false, if ever, only when its
    count is zero. *)
Theorem onchain_amount_roundtrip (x : gmap string pyval) (a : Z) :
  (forall r, RavenValue_bool r = false -> (rvn_value r == inject_Z 0)%Q) ->
  onchain_fields_valid x ->
  arg x "amount_sat" = PyInt a ->
  0 <= a <= ceiling ->
  exists inv r,
    OnchainInvoice_init x = Ok inv
    /\ OnchainInvoice_get_amount_sat inv = PyRavenValue r
    /\ (rvn_value r == inject_Z a)%Q
    /\ forall n, get_amount_sat (Onchain inv, n) = (Ok (PyRavenValue r), (Onchain inv, n)).
Proof.
  intros Hfalse Hvalid Hamount Ha.
  destruct (onchain_init_valid_fields x Hvalid) as (entries & e & t & h & _ & ->).
  rewrite Hamount, (onchain_validator_accepts_int a Ha). cbn [rbind].
  match goal with |- exists inv r, Ok ?i = Ok inv /\ _ => exists i end.
  unfold get_amount_sat, dispatch, OnchainInvoice_get_amount_sat.
  cbn [fst snd amount_sat truthy].
  destruct (RavenValue_bool (RavenValue_of_int a)) eqn:Hb.
  - exists (RavenValue_of_int a). repeat split; reflexivity.
  - exists RavenValue_default. repeat split; try reflexivity.
    symmetry. apply (Hfalse _ Hb).
Qed.

(** C3, as the code has it: the construction of an on-chain invoice with
    [amount_sat = "!"] and valid other fields succeeds, the sentinel is
    stored unchanged, and [get_amount_sat()] returns the sentinel itself. *)
Theorem max_amount_is_returned_as_sentinel (x : gmap string pyval) :
  onchain_fields_valid x ->
  arg x "amount_sat" = PyStr "!" ->
  exists inv,
    OnchainInvoice_init x = Ok inv
    /\ amount_sat inv = PyStr "!"
    /\ OnchainInvoice_get_amount_sat inv = PyStr "!"
    /\ forall n, get_amount_sat (Onchain inv, n) = (Ok (PyStr "!"), (Onchain inv, n)).
Proof.
  intros Hvalid Hamount.
  destruct (onchain_init_valid_fields x Hvalid) as (entries & e & t & h & _ & ->).
  rewrite Hamount. simpl. eexists. repeat split.
Qed.

(** ** The memoised decode *)

Lemma cached_valid (self : LNInvoice) (a : LnAddr) :
  LNInvoice_valid self a -> LNInvoice_valid (cached self a) a.
Proof. intros (Hdec & _ & Hamount). repeat split; auto. Qed.

Lemma cached_idem (self : LNInvoice) (a : LnAddr) :
  __lnaddr self = Some a -> cached self a = self.
Proof. destruct self. simpl. by intros ->. Qed.

Lemma lnaddr_step (w : ln_world) (a : LnAddr) :
  LNInvoice_valid (fst w) a ->
  LNInvoice_lnaddr w = (Ok a, (cached (fst w) a, (snd w + miss (fst w))%nat)).
Proof.
  intros (Hdec & [Hnone | Hsome] & _); unfold LNInvoice_lnaddr, miss.
  - rewrite Hnone, Hdec. unfold cached. do 3 f_equal. lia.
  - rewrite Hsome, (cached_idem _ _ Hsome). destruct w. simpl. do 2 f_equal. lia.
Qed.

Lemma get_amount_msat_step (w : ln_world) (a : LnAddr) :
  LNInvoice_valid (fst w) a ->
  LNInvoice_get_amount_msat w
  = (Ok (amount_value (fst w) a), (cached (fst w) a, (snd w + miss (fst w))%nat)).
Proof.
  intros Hvalid. unfold LNInvoice_get_amount_msat, bind, amount_value.
  rewrite (lnaddr_step w a Hvalid).
  destruct (encoded_amount a) as [amount|]; [destruct (amount =? 0)|]; reflexivity.
Qed.

Lemma call_step (f : accessor) (w : ln_world) (a : LnAddr) :
  LNInvoice_valid (fst w) a ->
  call f w = (Ok (accessor_value f (fst w) a), (cached (fst w) a, (snd w + miss (fst w))%nat)).
Proof.
  intros Hvalid. destruct f; simpl; [| | | |by apply get_amount_msat_step];
    unfold LNInvoice_message, LNInvoice_time, LNInvoice_exp, LNInvoice_rhash, bind;
    by rewrite (lnaddr_step w a Hvalid).
Qed.

Lemma call_again (f : accessor) (self : LNInvoice) (n : nat) (a : LnAddr) :
  LNInvoice_valid self a ->
  call f (cached self a, n) = (Ok (accessor_value f self a), (cached self a, n)).
Proof.
  intros Hvalid.
  rewrite (call_step f (cached self a, n) a (cached_valid _ _ Hvalid)).
  unfold cached, miss. simpl. do 3 f_equal. lia.
Qed.

Lemma run_step (calls : list accessor) (w : ln_world) (a : LnAddr) :
  LNInvoice_valid (fst w) a ->
  calls <> [] ->
  snd (run calls w) = (cached (fst w) a, (snd w + miss (fst w))%nat).
Proof.
  revert w. induction calls as [|f calls IH]; intros w Hvalid Hne; [done|].
  simpl. rewrite (call_step f w a Hvalid).
  destruct calls as [|g calls].
  - reflexivity.
  - specialize (IH (cached (fst w) a, (snd w + miss (fst w))%nat)
                  (cached_valid _ _ Hvalid) ltac:(done)).
    destruct (run (g :: calls) _) as [rs w'']. simpl in IH |- *. rewrite IH.
    unfold cached, miss. simpl. f_equal. lia.
Qed.

Lemma init_valid (x : gmap string pyval) (self : LNInvoice) :
  LNInvoice_init x = Ok self ->
  __lnaddr self = None /\ exists a, LNInvoice_valid self a.
Proof.
  unfold LNInvoice_init, LNInvoice_validate_invoice_str.
  destruct (bind_kwargs _ _) as [[]|]; [|done]. simpl.
  destruct (lndecode (arg x "invoice")) as [a|] eqn:Hdec; [|done]. simpl.
  destruct (LNInvoice_validate_amount _) as [[]|] eqn:Hamount; [|done]. simpl.
  intros [= <-]. split; [done|]. exists a. repeat split; auto.
Qed.

(** C5: on a constructed lightning invoice the cache starts empty, and after
    any run of calls to [message], [time], [exp], [rhash] and
    [get_amount_msat] the accessors have run the codec at most once in all;
    calling any accessor twice in a row returns the same value both times,
    the second call leaving the object untouched; a cache that holds a
    decoded value at some point of the run holds the same value at the end;
    the stored fields are never written. *)
Theorem lazy_decode_once (x : gmap string pyval) (self : LNInvoice) (calls : list accessor) :
  LNInvoice_init x = Ok self ->
  let w := snd (run calls (self, 0%nat)) in
  __lnaddr self = None
  /\ (snd w <= 1)%nat
  /\ (forall f, exists r w1, call f w = (Ok r, w1) /\ call f w1 = (Ok r, w1))
  /\ (forall before after a,
        calls = (before ++ after)%list ->
        __lnaddr (fst (snd (run before (self, 0%nat)))) = Some a ->
        __lnaddr (fst w) = Some a)
  /\ (calls <> [] ->
      exists a, lndecode (invoice self) = Some a /\ __lnaddr (fst w) = Some a)
  /\ (ln_type (fst w), invoice (fst w), amount_msat (fst w))
     = (ln_type self, invoice self, amount_msat self).
Proof.
  intros Hinit. destruct (init_valid x self Hinit) as [Hnone [a Hvalid]].
  assert (Hrun : forall cs, cs <> [] ->
            snd (run cs (self, 0%nat)) = (cached self a, 1%nat)).
  { intros cs Hcs. rewrite (run_step cs (self, 0%nat) a Hvalid Hcs).
    unfold miss. simpl. by rewrite Hnone. }
  assert (Hw : snd (run calls (self, 0%nat)) = (self, 0%nat)
               \/ snd (run calls (self, 0%nat)) = (cached self a, 1%nat)).
  { destruct calls; [by left|right; by apply Hrun]. }
  cbv zeta. split; [done|]. split; [|split; [|split; [|split]]].
  - destruct Hw as [-> | ->]; simpl; lia.
  - intros f. set (w := snd (run calls (self, 0%nat))) in *.
    assert (Hv : LNInvoice_valid (fst w) a).
    { destruct Hw as [-> | ->]; [done|by apply cached_valid]. }
    exists (accessor_value f (fst w) a), (cached (fst w) a, (snd w + miss (fst w))%nat).
    split; [apply (call_step f w a Hv)|apply (call_again f _ _ a Hv)].
  - intros before after a' -> Hbefore.
    destruct before as [|f before].
    + simpl in Hbefore. congruence.
    + rewrite Hrun in Hbefore by done. rewrite Hrun by done. done.
  - intros Hne. exists a. split; [apply Hvalid|]. by rewrite Hrun.
  - destruct Hw as [-> | ->]; reflexivity.
Qed.

(** ** Lightning amounts *)

Lemma Qtruncate_zero (d c1 c2 : Q) :
  Qeq_bool d (inject_Z 0) = true -> Qtruncate (d * c1 * c2) = 0.
Proof.
  intros Hd%Qeq_bool_iff. unfold Qeq in Hd. simpl in Hd.
  assert (Qnum d = 0) as Hnum by lia.
  unfold Qtruncate. simpl. rewrite Hnum. reflexivity.
Qed.

Lemma amount_value_precedence (self : LNInvoice) (a : LnAddr) :
  amount_held a ->
  amount_value self a =
    match encoded_msat a with
    | Some m => if m =? 0 then amount_msat self else PyInt m
    | None => amount_msat self
    end.
Proof.
  unfold amount_held, amount_value, encoded_amount, encoded_msat. intros Hheld.
  destruct (LnAddr_amount a) as [d|]; simpl; [|done].
  destruct (Qeq_bool d (inject_Z 0)) eqn:Hd.
  - by rewrite (Qtruncate_zero d _ _ Hd).
  - destruct (Hheld d eq_refl) as [Hcoin Hmsat].
    unfold Decimal_mul_int, Decimal_fix. by rewrite Hcoin, Hmsat.
Qed.

Lemma validated_amount_msat (v : pyval) :
  LNInvoice_validate_amount v = Ok tt -> v = PyNone \/ is_Some (as_int v).
Proof.
  unfold LNInvoice_validate_amount.
  destruct v; simpl; try discriminate; eauto.
Qed.

Lemma amount_value_type (self : LNInvoice) (a : LnAddr) :
  LNInvoice_validate_amount (amount_msat self) = Ok tt ->
  amount_value self a = PyNone \/ is_Some (as_int (amount_value self a)).
Proof.
  intros Hfallback%validated_amount_msat. unfold amount_value.
  destruct (encoded_amount a) as [m|]; [destruct (m =? 0)|]; simpl; eauto.
Qed.

Lemma get_amount_sat_step (w : ln_world) (a : LnAddr) :
  LNInvoice_valid (fst w) a ->
  fst (LNInvoice_get_amount_sat w) =
    match amount_value (fst w) a with
    | PyNone => Ok PyNone
    | msat =>
        rmap (fun d => PyRavenValue (RavenValue_of_Satoshis (Decimal_div_int d 1000)))
          (to_Decimal msat)
    end.
Proof.
  intros Hvalid. unfold LNInvoice_get_amount_sat, bind.
  rewrite (get_amount_msat_step w a Hvalid).
  destruct (amount_value _ _) as [ |b|z|q|s|l|l|d|r|o|cls]; try reflexivity;
    unfold lift, to_Decimal; by destruct (Decimal_from _).
Qed.

Lemma decimals_thousand (fuel : nat) (k n : Z) :
  exists c j,
    decimals (S (S (S fuel))) k n 1000 = Some (c, k + j)
    /\ 0 <= j <= 3
    /\ Z.abs c <= Z.abs n.
Proof.
  clear gettext age. cbn [decimals].
  destruct (Z.eqb_spec (Z.rem n 1000) 0) as [|H0].
  { exists (Z.quot n 1000), 0. rewrite Z.add_0_r.
    repeat split; try lia. Z.to_euclidean_division_equations. lia. }
  destruct (Z.eqb_spec (Z.rem (n * 10) 1000) 0) as [|H1].
  { exists (Z.quot (n * 10) 1000), 1.
    repeat split; try lia. Z.to_euclidean_division_equations. lia. }
  destruct (Z.eqb_spec (Z.rem (n * 10 * 10) 1000) 0) as [|H2].
  { exists (Z.quot (n * 10 * 10) 1000), 2.
    replace (k + 1 + 1) with (k + 2) by lia.
    repeat split; try lia. Z.to_euclidean_division_equations. lia. }
  exists n, 3. replace (k + 1 + 1 + 1) with (k + 3) by lia.
  assert (Z.rem (n * 10 * 10 * 10) 1000 = 0) as Hrem.
  { replace (n * 10 * 10 * 10) with (n * 1000) by lia. apply Z.rem_mul. lia. }
  assert (Z.quot (n * 10 * 10 * 10) 1000 = n) as Hquot.
  { replace (n * 10 * 10 * 10) with (n * 1000) by lia. apply Z.quot_mul. lia. }
  destruct fuel; cbn [decimals]; rewrite Hrem, Hquot; simpl; repeat split; lia.
Qed.

Lemma context_holds_thousandths (n : Z) :
  Z.abs n < 10 ^ 28 -> context_holds (inject_Z n / inject_Z 1000) = true.
Proof.
  intros Hn. unfold context_holds.
  change (Qden (inject_Z n / inject_Z 1000)) with 1000%positive.
  change (Qnum (inject_Z n / inject_Z 1000)) with (n * 1).
  change (S (Z.to_nat (Z.log2 (Z.pos 1000)))) with (S (S (S 7%nat))).
  destruct (decimals_thousand 7 0 (n * 1)) as (c & j & -> & Hj & Hc).
  clear gettext age.
  apply andb_true_intro. split; [apply Z.ltb_lt|apply Z.leb_le]; lia.
Qed.


(** ** The factory *)

Lemma type_test (x : gmap string pyval) :
  py_eq_int (arg x "type") PR_TYPE_LN = true <-> selects_lightning x.
Proof.
  unfold arg, selects_lightning. split.
  - destruct (x !! "type") as [v|]; simpl; [eauto|discriminate].
  - intros (v & -> & Hv). done.
Qed.

Lemma bind_kwargs_missing (params : list string) (x : gmap string pyval) (k : string) :
  k ∈ params -> k ∉ dom x -> bind_kwargs params x = Raise TypeError.
Proof.
  intros Hin Hout. unfold bind_kwargs.
  destruct (decide (dom x ⊆ list_to_set params)); [|done].
  destruct (decide (list_to_set params ⊆ dom x)) as [Hsub|]; [|done].
  exfalso. apply Hout, Hsub. by apply (elem_of_list_to_set (C := gset string)).
Qed.

(** C6, as the code has it: [from_json] hands a record to the constructor of
    [LNInvoice] exactly when its ['type'] field equals 2, and to the
    constructor of [OnchainInvoice] in every other case.  A record whose
    field holds another value, with valid on-chain fields, becomes an
    [OnchainInvoice] that stores the value as given.  A record without the
    field is not constructed at all: the constructor requires the keyword
    and raises [TypeError].  An invoice that is returned is of the lightning
    variant exactly when the field equals 2, and of the on-chain variant
    exactly when the field is there and holds another value. *)
Theorem from_json_dispatch (x : gmap string pyval) :
  (selects_lightning x -> from_json x = rmap Lightning (LNInvoice_init x))
  /\ (~ selects_lightning x -> from_json x = rmap Onchain (OnchainInvoice_init x))
  /\ (forall v amount,
        x !! "type" = Some v ->
        py_eq_int v PR_TYPE_LN = false ->
        onchain_fields_valid x ->
        OnchainInvoice_validate_amount (arg x "amount_sat") = Ok amount ->
        exists o, from_json x = Ok (Onchain o) /\ onchain_type o = v)
  /\ (x !! "type" = None ->
        from_json x = Raise TypeError /\ forall inv, from_json x <> Ok inv)
  /\ (forall inv, from_json x = Ok inv ->
        (selects_lightning x <-> exists l, inv = Lightning l)
        /\ ((exists v, x !! "type" = Some v /\ py_eq_int v PR_TYPE_LN = false)
            <-> exists o, inv = Onchain o)).
Proof.
  unfold from_json. pose proof (type_test x) as Htest.
  assert (x !! "type" = None -> OnchainInvoice_init x = Raise TypeError) as Hmissing.
  { intros Hnone. unfold OnchainInvoice_init.
    rewrite (bind_kwargs_missing OnchainInvoice_params x "type"); [done| |].
    - apply (bool_decide_unpack _). reflexivity.
    - by apply not_elem_of_dom. }
  assert (forall v, x !! "type" = Some v -> py_eq_int (arg x "type") PR_TYPE_LN
                                            = py_eq_int v PR_TYPE_LN) as Hfield.
  { intros v Hv. unfold arg. by rewrite Hv. }
  destruct (py_eq_int (arg x "type") PR_TYPE_LN) eqn:Hty.
  - assert (selects_lightning x) as Hsel by (by apply Htest).
    split; [done|]. split; [done|]. split; [|split].
    + intros v amount Hv Hne. pose proof (Hfield v Hv). congruence.
    + intros Hnone. destruct Hsel as (v & Hv & _). congruence.
    + intros inv Hinv. destruct (LNInvoice_init x) as [l|]; [|done].
      injection Hinv as <-. split; split.
      * intros _. by exists l.
      * done.
      * intros (v & Hv & Hne). pose proof (Hfield v Hv). congruence.
      * intros [o [=]].
  - assert (~ selects_lightning x) as Hsel.
    { intros Hs%Htest. discriminate. }
    split; [done|]. split; [done|]. split; [|split].
    + intros v amount Hv Hne Hvalid Hamount.
      destruct (onchain_init_valid_fields x Hvalid) as (entries & e & t & h & _ & ->).
      rewrite Hamount. cbn [rbind rmap].
      match goal with |- exists o, Ok (Onchain ?i) = Ok (Onchain o) /\ _ => exists i end.
      split; [reflexivity|]. cbn [onchain_type]. unfold arg. by rewrite Hv.
    + intros Hnone. rewrite (Hmissing Hnone). split; [done|]. intros inv Hinv.
      discriminate Hinv.
    + intros inv Hinv. destruct (OnchainInvoice_init x) as [o|] eqn:Hinit; [|done].
      injection Hinv as <-. split; split.
      * done.
      * intros [l [=]].
      * intros _. by exists o.
      * intros _. destruct (x !! "type") as [v|] eqn:Hv.
        -- exists v. split; [done|]. symmetry. by apply Hfield.
        -- discriminate (Hmissing eq_refl).
Qed.

Lemma bind_kwargs_unexpected (params : list string) (x : gmap string pyval) (k : string) :
  k ∈ dom x -> k ∉ params -> bind_kwargs params x = Raise TypeError.
Proof.
  intros Hin Hout. unfold bind_kwargs.
  destruct (decide (dom x ⊆ list_to_set params)) as [Hsub|]; [|done].
  exfalso. apply Hout. apply (elem_of_list_to_set (C := gset string)). by apply Hsub.
Qed.

(** C7, as the code has it: a record with a field that the selected variant
    does not declare is rejected by [from_json] with a [TypeError], raised
    when the keywords are bound to the constructor, before any validator
    runs; no invoice results and the field is not dropped. *)
Theorem undeclared_field_raises_TypeError (x : gmap string pyval) (k : string) :
  k ∈ dom x ->
  k ∉ selected_params x ->
  from_json x = Raise TypeError.
Proof.
  unfold selected_params, from_json. intros Hin Hout.
  destruct (py_eq_int (arg x "type") PR_TYPE_LN).
  - unfold LNInvoice_init. by rewrite (bind_kwargs_unexpected _ x k Hin Hout).
  - unfold OnchainInvoice_init. by rewrite (bind_kwargs_unexpected _ x k Hin Hout).
Qed.

(** ** The status text *)

Lemma lnaddr_view_step (w : ln_world) (a : LnAddr) :
  lnaddr_view (fst w) = Some a ->
  exists w', LNInvoice_lnaddr w = (Ok a, w') /\ lnaddr_view (fst w') = Some a.
Proof.
  unfold lnaddr_view, LNInvoice_lnaddr. intros Hview.
  destruct (__lnaddr (fst w)) as [a'|] eqn:Hcache.
  - injection Hview as ->. exists w. by rewrite Hcache.
  - rewrite Hview. eexists. split; [done|]. done.
Qed.

Lemma Invoice_exp_view (w : world) (e : Z) :
  exp_view (fst w) = Some e ->
  exists w', Invoice_exp w = (Ok e, w')
             /\ exp_view (fst w') = Some e
             /\ time_view (fst w') = time_view (fst w).
Proof.
  destruct w as [[o|l] n]; simpl.
  - intros [= <-]. by eexists.
  - destruct (lnaddr_view l) as [a|] eqn:Hview; [|done]. intros [= <-].
    destruct (lnaddr_view_step (l, n) a Hview) as ([l' n'] & Hstep & Hview').
    exists (Lightning l', n').
    unfold Invoice_exp, dispatch, LNInvoice_exp, bind. simpl in *.
    by rewrite Hstep, Hview'.
Qed.

Lemma Invoice_time_view (w : world) (t : Z) :
  time_view (fst w) = Some t ->
  exists w', Invoice_time w = (Ok t, w').
Proof.
  destruct w as [[o|l] n]; simpl.
  - intros [= <-]. by eexists.
  - destruct (lnaddr_view l) as [a|] eqn:Hview; [|done]. intros [= <-].
    destruct (lnaddr_view_step (l, n) a Hview) as ([l' n'] & Hstep & Hview').
    exists (Lightning l', n').
    unfold Invoice_time, dispatch, LNInvoice_time, bind. simpl in *.
    by rewrite Hstep.
Qed.

Lemma tooltip_unpaid : tooltip PR_UNPAID = Ok (gettext "Unpaid").
Proof. reflexivity. Qed.

Lemma status_not_positive (w : world) (e : Z) :
  exp_view (fst w) = Some e ->
  e <= 0 \/ e = LN_EXPIRY_NEVER ->
  fst (get_status_str PR_UNPAID w) = Ok (gettext "Unpaid").
Proof.
  intros Hexp He. unfold get_status_str, bind, lift.
  rewrite tooltip_unpaid. simpl.
  destruct (Invoice_exp_view w e Hexp) as (w1 & -> & Hexp1 & _).
  destruct (Z.gtb_spec e 0) as [Hpos|]; [|done].
  destruct (Invoice_exp_view w1 e Hexp1) as (w2 & -> & _ & _).
  destruct He as [?| ->]; [lia|]. by rewrite Z.eqb_refl.
Qed.

(** C9: for an unpaid invoice whose expiry is positive and is not the
    "never" value, [get_status_str] returns the translated "Expires"
    followed by the relative age of [exp + time]; for an unpaid invoice with
    [exp = 0] it returns the plain "Unpaid" label, whatever [time] is; every
    other status code gets the label the table holds for it, whatever the
    invoice is, and the invoice is not read. *)
Theorem get_status_str_countdown (w : world) :
  (forall e t,
      exp_view (fst w) = Some e ->
      time_view (fst w) = Some t ->
      0 < e ->
      e <> LN_EXPIRY_NEVER ->
      fst (get_status_str PR_UNPAID w) = Ok (gettext "Expires" +:+ " " +:+ age (e + t)))
  /\ (exp_view (fst w) = Some 0 ->
      fst (get_status_str PR_UNPAID w) = Ok (gettext "Unpaid"))
  /\ (forall status, status <> PR_UNPAID -> get_status_str status w = (tooltip status, w))
  /\ (tooltip PR_EXPIRED = Ok (gettext "Expired")
      /\ tooltip PR_UNKNOWN = Ok (gettext "Unknown")
      /\ tooltip PR_PAID = Ok (gettext "Paid")
      /\ tooltip PR_INFLIGHT = Ok (gettext "In progress")
      /\ tooltip PR_FAILED = Ok (gettext "Failed")
      /\ tooltip PR_ROUTING = Ok (gettext "Computing route...")
      /\ tooltip PR_UNCONFIRMED = Ok (gettext "Unconfirmed")).
Proof.
  split; [|split; [|split]].
  - intros e t Hexp Htime Hpos Hfinite. unfold get_status_str, bind, lift.
    rewrite tooltip_unpaid. simpl.
    destruct (Invoice_exp_view w e Hexp) as (w1 & -> & Hexp1 & Htime1).
    destruct (Z.gtb_spec e 0) as [_|]; [|lia].
    destruct (Invoice_exp_view w1 e Hexp1) as (w2 & -> & Hexp2 & Htime2).
    destruct (Z.eqb_spec e LN_EXPIRY_NEVER) as [|_]; [done|]. simpl.
    destruct (Invoice_exp_view w2 e Hexp2) as (w3 & -> & _ & Htime3).
    rewrite <- Htime1, <- Htime2, <- Htime3 in Htime.
    by destruct (Invoice_time_view w3 t Htime) as (w4 & ->).
  - intros Hexp. apply (status_not_positive w 0 Hexp). lia.
  - intros status Hstatus. unfold get_status_str, bind, lift.
    destruct (tooltip status); [|done].
    by destruct (Z.eqb_spec status PR_UNPAID).
  - repeat split; reflexivity.
Qed.

(** C10: an expiry equal to [LN_EXPIRY_NEVER], one hundred years of seconds,
    is read like [exp = 0]: an unpaid invoice gets the plain "Unpaid" label
    and no countdown. *)
Theorem never_expiry_reads_unpaid (w : world) :
  exp_view (fst w) = Some LN_EXPIRY_NEVER ->
  LN_EXPIRY_NEVER = 3153600000
  /\ fst (get_status_str PR_UNPAID w) = Ok (gettext "Unpaid").
Proof.
  intros Hexp. split; [reflexivity|].
  apply (status_not_positive w _ Hexp). by right.
Qed.

(** ** Further properties of construction *)

(** A record without a ['type'] key goes to the constructor of
    [OnchainInvoice], where ['type'] is a required keyword: [from_json]
    raises [TypeError] and returns no invoice. *)
Theorem from_json_without_type (x : gmap string pyval) :
  x !! "type" = None ->
  from_json x = Raise TypeError.
Proof.
  intros Hnone. unfold from_json, arg. rewrite Hnone. simpl.
  unfold OnchainInvoice_init.
  rewrite (bind_kwargs_missing OnchainInvoice_params x "type"); [done| |].
  - apply (bool_decide_unpack _). reflexivity.
  - by apply not_elem_of_dom.
Qed.

(** What a successful construction establishes: an on-chain amount is the
    sentinel or a monetary value within [0, ceiling], and the outputs are
    the normalised entries; the fallback amount of a lightning invoice is
    [None] or an int within [0, ceiling * 1000], its string decodes, and its
    cache is empty. *)
Theorem construction_invariants :
  (forall x inv,
      OnchainInvoice_init x = Ok inv ->
      (amount_sat inv = PyStr "!"
       \/ exists r, amount_sat inv = PyRavenValue r /\ within (rvn_value r) ceiling)
      /\ exists entries,
          py_iter (arg x "outputs") = Some entries
          /\ outputs inv = _decode_outputs entries)
  /\ (forall x self,
      LNInvoice_init x = Ok self ->
      (amount_msat self = PyNone
       \/ exists n, as_int (amount_msat self) = Some n /\ 0 <= n <= ceiling * 1000)
      /\ is_Some (lndecode (invoice self))
      /\ __lnaddr self = None
      /\ invoice self = arg x "invoice"
      /\ amount_msat self = arg x "amount_msat").
Proof.
  split.
  - intros x inv. unfold OnchainInvoice_init, outputs_converter.
    destruct (bind_kwargs _ _) as [[]|]; [|done]. simpl.
    destruct (py_iter (arg x "outputs")) as [entries|]; [|done]. simpl.
    destruct (OnchainInvoice_validate_amount _) as [amount|] eqn:Hamount; [|done]. simpl.
    destruct (instance_of_int (arg x "exp")) as [e|]; [|done]. simpl.
    destruct (instance_of_int (arg x "time")) as [t|]; [|done]. simpl.
    destruct (instance_of_int (arg x "height")) as [h|]; [|done]. simpl.
    intros [= <-]. simpl. split; [|by exists entries].
    unfold OnchainInvoice_validate_amount in Hamount.
    destruct (match as_int (arg x "amount_sat") with
              | Some n => _
              | None => _
              end) as [v|]; [|done].
    simpl in Hamount. destruct v as [ |b|z|q|s|l|l|d|r|o|cls]; try discriminate.
    + destruct (String.eqb s "!") eqn:Hs; [|done].
      apply String.eqb_eq in Hs as ->. injection Hamount as <-. by left.
    + destruct (_ && _) eqn:Hb; [|done]. injection Hamount as <-.
      right. exists r. split; [done|]. by apply within_test.
  - intros x self Hinit.
    destruct (init_valid x self Hinit) as (Hnone & a & Hdec & _ & Hamount).
    split; [|split; [by exists a|split; [done|]]].
    + unfold LNInvoice_validate_amount, ceiling in *.
      destruct (amount_msat self); simpl in *; try discriminate; [by left| |].
      * bound_test; [right; eauto|done].
      * bound_test; [right; eauto|done].
    + clear Hdec Hamount. revert Hinit. unfold LNInvoice_init.
      destruct (bind_kwargs _ _) as [[]|]; [|done]. simpl.
      destruct (LNInvoice_validate_invoice_str _) as [[]|]; [|done]. simpl.
      destruct (LNInvoice_validate_amount _) as [[]|]; [|done]. simpl.
      by intros [= <-].
Qed.

(** The two ways to a lightning invoice treat a string the codec rejects
    differently: the constructor lets the codec's own exception through,
    before it looks at the amount; [from_bech32] raises [InvoiceError]. *)
Theorem undecodable_invoice_string :
  (forall x,
      bind_kwargs LNInvoice_params x = Ok tt ->
      lndecode (arg x "invoice") = None ->
      LNInvoice_init x = Raise ForeignError)
  /\ (forall inv, lndecode inv = None -> is_InvoiceError (LNInvoice_from_bech32 inv)).
Proof.
  split.
  - intros x Hbind Hdec. unfold LNInvoice_init, LNInvoice_validate_invoice_str.
    by rewrite Hbind, Hdec.
  - intros inv Hdec. unfold LNInvoice_from_bech32. rewrite Hdec. by eexists.
Qed.

(** ** What a returned invoice holds *)

Lemma bind_kwargs_ok_dom (params : list string) (x : gmap string pyval) :
  bind_kwargs params x = Ok tt <-> dom x = list_to_set params.
Proof.
  unfold bind_kwargs. split.
  - destruct (decide (dom x ⊆ _)) as [Hsub|]; [|done].
    destruct (decide (_ ⊆ dom x)) as [Hsup|]; [|done].
    intros _. apply set_eq. intros k. split; [apply Hsub|apply Hsup].
  - intros ->. rewrite !decide_True; done.
Qed.

Lemma onchain_init_fields (x : gmap string pyval) (inv : OnchainInvoice) :
  OnchainInvoice_init x = Ok inv ->
  dom x = list_to_set OnchainInvoice_params
  /\ outputs_converter (arg x "outputs") = Ok (outputs inv)
  /\ OnchainInvoice_validate_amount (arg x "amount_sat") = Ok (amount_sat inv)
  /\ as_int (arg x "exp") = Some (onchain_exp inv)
  /\ as_int (arg x "time") = Some (onchain_time inv)
  /\ as_int (arg x "height") = Some (height inv)
  /\ (onchain_type inv, onchain_message inv, onchain_id inv, bip70 inv, requestor inv)
     = (arg x "type", arg x "message", arg x "id", arg x "bip70", arg x "requestor").
Proof.
  unfold OnchainInvoice_init, instance_of_int.
  destruct (bind_kwargs _ _) as [[]|] eqn:Hbind; [|done]. simpl.
  destruct (outputs_converter _) as [outs|]; [|done]. simpl.
  destruct (OnchainInvoice_validate_amount _) as [amount|]; [|done]. simpl.
  destruct (as_int (arg x "exp")) as [e|]; [|done]. simpl.
  destruct (as_int (arg x "time")) as [t|]; [|done]. simpl.
  destruct (as_int (arg x "height")) as [h|]; [|done]. simpl.
  intros [= <-]. split; [exact (proj1 (bind_kwargs_ok_dom _ _) Hbind)|done].
Qed.

Lemma ln_init_fields (x : gmap string pyval) (self : LNInvoice) :
  LNInvoice_init x = Ok self ->
  dom x = list_to_set LNInvoice_params
  /\ self = mkLN (arg x "type") (arg x "invoice") (arg x "amount_msat") None.
Proof.
  unfold LNInvoice_init.
  destruct (bind_kwargs _ _) as [[]|] eqn:Hbind; [|done]. simpl.
  destruct (LNInvoice_validate_invoice_str _) as [[]|]; [|done]. simpl.
  destruct (LNInvoice_validate_amount _) as [[]|]; [|done]. simpl.
  intros [= <-]. split; [exact (proj1 (bind_kwargs_ok_dom _ _) Hbind)|done].
Qed.

(** An invoice that [from_json] returns was built from a record with exactly
    the fields its variant declares, and holds them as they were given,
    [exp], [time] and [height] being ints; only [amount_sat] and [outputs]
    are stored in their normalised form, and a lightning invoice starts with
    an empty cache. *)
Theorem from_json_stores_the_record (x : gmap string pyval) (inv : Invoice) :
  from_json x = Ok inv ->
  dom x = list_to_set (selected_params x)
  /\ Invoice_type inv = arg x "type"
  /\ match inv with
     | Onchain o =>
         (onchain_message o, onchain_id o, bip70 o, requestor o)
         = (arg x "message", arg x "id", arg x "bip70", arg x "requestor")
         /\ (as_int (arg x "exp"), as_int (arg x "time"), as_int (arg x "height"))
            = (Some (onchain_exp o), Some (onchain_time o), Some (height o))
         /\ OnchainInvoice_validate_amount (arg x "amount_sat") = Ok (amount_sat o)
         /\ outputs_converter (arg x "outputs") = Ok (outputs o)
     | Lightning l =>
         (invoice l, amount_msat l, __lnaddr l)
         = (arg x "invoice", arg x "amount_msat", None)
     end.
Proof.
  unfold from_json, selected_params.
  destruct (py_eq_int (arg x "type") PR_TYPE_LN).
  - destruct (LNInvoice_init x) as [l|] eqn:Hinit; [|done]. intros [= <-].
    by destruct (ln_init_fields x l Hinit) as (Hdom & ->).
  - destruct (OnchainInvoice_init x) as [o|] eqn:Hinit; [|done]. intros [= <-].
    destruct (onchain_init_fields x o Hinit)
      as (Hdom & Houts & Hamount & Hexp & Htime & Hheight & Hrest).
    split; [exact Hdom|]. simpl. repeat split; congruence.
Qed.

(** On an invoice that [from_json] returns, [is_lightning()] tells the
    variant: it holds of the lightning invoices and of no on-chain one. *)
Theorem from_json_is_lightning (x : gmap string pyval) (inv : Invoice) :
  from_json x = Ok inv ->
  (is_lightning inv = true <-> exists l, inv = Lightning l)
  /\ (is_lightning inv = false <-> exists o, inv = Onchain o).
Proof.
  unfold from_json, is_lightning.
  destruct (py_eq_int (arg x "type") PR_TYPE_LN) eqn:Hty.
  - destruct (LNInvoice_init x) as [l|] eqn:Hinit; [|done]. intros [= <-].
    destruct (ln_init_fields x l Hinit) as (_ & ->). simpl. rewrite Hty.
    split; split; try done; [by eexists|by intros [o [=]]].
  - destruct (OnchainInvoice_init x) as [o|] eqn:Hinit; [|done]. intros [= <-].
    destruct (onchain_init_fields x o Hinit) as (_ & _ & _ & _ & _ & _ & Hrest).
    simpl. assert (onchain_type o = arg x "type") as -> by congruence. rewrite Hty.
    split; split; try done; [by intros [l [=]]|by eexists].
Qed.

Lemma ln_validator_rejects_only (v : pyval) (e : exn) :
  LNInvoice_validate_amount v = Raise e -> exists msg, e = InvoiceError msg.
Proof.
  unfold LNInvoice_validate_amount.
  destruct v; simpl; try (intros [= <-]; by eexists);
    destruct (_ && _); intros [= <-]; by eexists.
Qed.

(** [from_bech32] returns a lightning invoice or raises [InvoiceError], and
    nothing else: the invoice holds the string as given, the type
    [PR_TYPE_LN], what [get_amount_msat()] of the decoded string returns as
    its fallback amount, and an empty cache. *)
Theorem from_bech32_result (inv : pyval) :
  match LNInvoice_from_bech32 inv with
  | Ok self =>
      exists a,
        lndecode inv = Some a
        /\ self = mkLN (PyInt PR_TYPE_LN) inv (LnAddr_get_amount_msat a) None
        /\ LNInvoice_validate_amount (LnAddr_get_amount_msat a) = Ok tt
        /\ is_lightning (Lightning self) = true
  | Raise e => exists msg, e = InvoiceError msg
  end.
Proof.
  unfold LNInvoice_from_bech32.
  destruct (lndecode inv) as [a|] eqn:Hdec; [|by eexists].
  unfold LNInvoice_init, LNInvoice_validate_invoice_str.
  rewrite (proj2 (bind_kwargs_ok_dom _ _)).
  2:{ rewrite !dom_insert_L, dom_empty_L. unfold LNInvoice_params. set_solver. }
  unfold arg. rewrite lookup_insert_ne, lookup_insert_eq by done.
  rewrite !lookup_insert_ne, lookup_insert_eq by done.
  rewrite lookup_insert_eq. simpl. rewrite Hdec. simpl.
  destruct (LNInvoice_validate_amount _) as [[]|e] eqn:Hamount; simpl.
  - by exists a.
  - destruct (ln_validator_rejects_only _ _ Hamount) as [msg ->]. by eexists.
Qed.

(** ** The status text, in full *)

Lemma status_finite_positive (w : world) (e t : Z) :
  exp_view (fst w) = Some e ->
  time_view (fst w) = Some t ->
  0 < e ->
  e <> LN_EXPIRY_NEVER ->
  fst (get_status_str PR_UNPAID w) = Ok (gettext "Expires" +:+ " " +:+ age (e + t)).
Proof.
  intros Hexp Htime Hpos Hfinite. unfold get_status_str, bind, lift.
  rewrite tooltip_unpaid. simpl.
  destruct (Invoice_exp_view w e Hexp) as (w1 & -> & Hexp1 & Htime1).
  destruct (Z.gtb_spec e 0) as [_|]; [|lia].
  destruct (Invoice_exp_view w1 e Hexp1) as (w2 & -> & Hexp2 & Htime2).
  destruct (Z.eqb_spec e LN_EXPIRY_NEVER) as [|_]; [done|]. simpl.
  destruct (Invoice_exp_view w2 e Hexp2) as (w3 & -> & _ & Htime3).
  rewrite <- Htime1, <- Htime2, <- Htime3 in Htime.
  by destruct (Invoice_time_view w3 t Htime) as (w4 & ->).
Qed.

Lemma unpaid_status_cases (w : world) (e t : Z) :
  exp_view (fst w) = Some e ->
  time_view (fst w) = Some t ->
  fst (get_status_str PR_UNPAID w)
  = Ok (if (0 <? e) && negb (e =? LN_EXPIRY_NEVER)
        then gettext "Expires" +:+ " " +:+ age (e + t)
        else gettext "Unpaid").
Proof.
  intros Hexp Htime.
  destruct (Z.ltb_spec 0 e) as [Hpos|Hneg]; simpl.
  - destruct (Z.eqb_spec e LN_EXPIRY_NEVER) as [Hnever|Hfinite]; simpl.
    + apply (status_not_positive w e Hexp). by right.
    + by apply status_finite_positive.
  - apply (status_not_positive w e Hexp). by left.
Qed.

(** For an unpaid invoice whose expiry [e] and time [t] can be read,
    [get_status_str] returns the countdown to [e + t] exactly when [e] is
    positive and is not [LN_EXPIRY_NEVER], and the plain "Unpaid" label in
    every other case; in particular a negative expiry reads "Unpaid". *)
Theorem get_status_str_unpaid (w : world) (e t : Z) :
  exp_view (fst w) = Some e ->
  time_view (fst w) = Some t ->
  fst (get_status_str PR_UNPAID w)
  = Ok (if (0 <? e) && negb (e =? LN_EXPIRY_NEVER)
        then gettext "Expires" +:+ " " +:+ age (e + t)
        else gettext "Unpaid")
  /\ (e <= 0 -> fst (get_status_str PR_UNPAID w) = Ok (gettext "Unpaid")).
Proof.
  intros Hexp Htime. split; [by apply unpaid_status_cases|].
  intros Hneg. apply (status_not_positive w e Hexp). by left.
Qed.

Lemma tooltip_unknown (status : Z) :
  status < 0 \/ 7 < status -> tooltip status = Raise KeyError.
Proof.
  intros Hout. unfold tooltip, pr_tooltips.
  rewrite (not_elem_of_list_to_map_1 _ status); [done|].
  unfold PR_UNPAID, PR_PAID, PR_UNKNOWN, PR_EXPIRED, PR_INFLIGHT, PR_FAILED,
    PR_ROUTING, PR_UNCONFIRMED.
  simpl. rewrite !not_elem_of_cons. repeat split; try lia. apply not_elem_of_nil.
Qed.

(** [get_status_str] raises [KeyError] exactly for the status codes outside
    0..7, and then neither reads nor changes the invoice; for each of the
    eight codes it returns a string whenever the expiry and the time of the
    invoice can be read. *)
Theorem get_status_str_known_codes (status : Z) (w : world) :
  (status < 0 \/ 7 < status -> get_status_str status w = (Raise KeyError, w))
  /\ (0 <= status <= 7 ->
      is_Some (exp_view (fst w)) ->
      is_Some (time_view (fst w)) ->
      exists label, fst (get_status_str status w) = Ok label).
Proof.
  split.
  - intros Hout. unfold get_status_str, bind, lift.
    by rewrite (tooltip_unknown status Hout).
  - intros Hin [e Hexp] [t Htime].
    destruct (Z.eq_dec status PR_UNPAID) as [->|Hne].
    + rewrite (unpaid_status_cases w e t Hexp Htime). by eexists.
    + unfold get_status_str, bind, lift.
      assert (exists label, tooltip status = Ok label) as [label ->].
      { unfold PR_UNPAID in Hne.
        assert (status = 1 \/ status = 2 \/ status = 3 \/ status = 4
                \/ status = 5 \/ status = 6 \/ status = 7) as Hcases by lia.
        destruct Hcases as [->|[->|[->|[->|[->|[->| ->]]]]]]; by eexists. }
      exists label. by destruct (Z.eqb_spec status PR_UNPAID).
Qed.

Lemma Invoice_exp_valid (l : LNInvoice) (n : nat) (a : LnAddr) :
  LNInvoice_valid l a ->
  Invoice_exp (Lightning l, n)
  = (Ok (get_expiry a), (Lightning (cached l a), (n + miss l)%nat)).
Proof.
  intros Hvalid. unfold Invoice_exp, dispatch, LNInvoice_exp, bind. simpl.
  by rewrite (lnaddr_step (l, n) a Hvalid).
Qed.

Lemma Invoice_time_valid (l : LNInvoice) (n : nat) (a : LnAddr) :
  LNInvoice_valid l a ->
  Invoice_time (Lightning l, n)
  = (Ok (date a), (Lightning (cached l a), (n + miss l)%nat)).
Proof.
  intros Hvalid. unfold Invoice_time, dispatch, LNInvoice_time, bind. simpl.
  by rewrite (lnaddr_step (l, n) a Hvalid).
Qed.

Lemma Invoice_exp_onchain (o : OnchainInvoice) (n : nat) :
  Invoice_exp (Onchain o, n) = (Ok (onchain_exp o), (Onchain o, n)).
Proof. reflexivity. Qed.

Lemma Invoice_time_onchain (o : OnchainInvoice) (n : nat) :
  Invoice_time (Onchain o, n) = (Ok (onchain_time o), (Onchain o, n)).
Proof. reflexivity. Qed.

Lemma cached_again (l : LNInvoice) (n : nat) (a : LnAddr) :
  (Lightning (cached (cached l a) a), (n + miss (cached l a))%nat)
  = (Lightning (cached l a), n).
Proof. unfold cached, miss. simpl. f_equal. lia. Qed.

(** What [get_status_str] does to the invoice: nothing to an on-chain one;
    on a lightning invoice whose string decodes, the unpaid status reads the
    expiry up to three times and the time once, yet runs the codec once if
    the cache is empty and not at all if it is full, and leaves the decoded
    form in the cache; any other status leaves the cache alone. *)
Theorem get_status_str_effect (status : Z) (n : nat) :
  (forall o, snd (get_status_str status (Onchain o, n)) = (Onchain o, n))
  /\ (forall l a,
      LNInvoice_valid l a ->
      snd (get_status_str status (Lightning l, n))
      = if status =? PR_UNPAID
        then (Lightning (cached l a), (n + miss l)%nat)
        else (Lightning l, n))
  /\ (forall l, (miss l <= 1)%nat).
Proof.
  split; [|split].
  - intros o. unfold get_status_str, bind, lift.
    destruct (tooltip status); [|done].
    destruct (status =? PR_UNPAID); [|done].
    rewrite (Invoice_exp_onchain o n).
    destruct (onchain_exp o >? 0); [|done].
    rewrite (Invoice_exp_onchain o n).
    destruct (negb _); [|done].
    by rewrite (Invoice_exp_onchain o n), (Invoice_time_onchain o n).
  - intros l a Hvalid. unfold get_status_str, bind, lift.
    destruct (Z.eqb_spec status PR_UNPAID) as [->|Hne].
    + rewrite tooltip_unpaid. simpl.
      pose proof (cached_valid l a Hvalid) as Hcached.
      rewrite (Invoice_exp_valid l n a Hvalid).
      destruct (get_expiry a >? 0); [|done].
      rewrite (Invoice_exp_valid _ _ a Hcached), cached_again.
      destruct (negb _); [|done].
      rewrite (Invoice_exp_valid _ _ a Hcached), cached_again.
      by rewrite (Invoice_time_valid _ _ a Hcached), cached_again.
    + by destruct (tooltip status).
  - intros l. unfold miss. destruct (__lnaddr l); lia.
Qed.

(** ** The order of the checks of [OnchainInvoice] *)

(** When the keywords bind, the checks of the on-chain constructor run in a
    fixed order: [outputs] that cannot be iterated raise [TypeError]
    whatever the amount is; then the amount validator decides, its error
    coming before any complaint about [exp], [time] or [height]; then a
    value that is not an int for one of these raises [TypeError]. *)
Theorem onchain_checks_in_order (x : gmap string pyval) :
  bind_kwargs OnchainInvoice_params x = Ok tt ->
  (py_iter (arg x "outputs") = None -> OnchainInvoice_init x = Raise TypeError)
  /\ (is_Some (py_iter (arg x "outputs")) ->
      forall e, OnchainInvoice_validate_amount (arg x "amount_sat") = Raise e ->
                OnchainInvoice_init x = Raise e)
  /\ (is_Some (py_iter (arg x "outputs")) ->
      forall amount, OnchainInvoice_validate_amount (arg x "amount_sat") = Ok amount ->
      as_int (arg x "exp") = None
      \/ as_int (arg x "time") = None
      \/ as_int (arg x "height") = None ->
      OnchainInvoice_init x = Raise TypeError).
Proof.
  intros Hbind. unfold OnchainInvoice_init, outputs_converter, instance_of_int.
  rewrite Hbind. simpl. split; [|split].
  - by intros ->.
  - intros [entries ->] e ->. done.
  - intros [entries ->] amount -> Hint. simpl.
    destruct (as_int (arg x "exp")); [|done]. simpl.
    destruct (as_int (arg x "time")); [|done]. simpl.
    destruct (as_int (arg x "height")); [|done].
    by destruct Hint as [|[|]].
Qed.

(** ** Invoices from bridge-protocol requests *)

Lemma from_bip70_payreq_steps (pr : PaymentRequest) (height : pyval) :
  from_bip70_payreq pr height =
    (outs <-! outputs_converter (get_outputs pr) ;
     amount <-! OnchainInvoice_validate_amount (get_amount pr) ;
     h <-! instance_of_int height ;
     Ok (mkOnchain (PyInt PR_TYPE_ONCHAIN) (get_memo pr) amount
           (get_expiration_date pr - get_time pr) (get_time pr) (get_id pr) outs
           (PyStr (bytes_hex (raw pr))) (get_requestor pr) h)).
Proof.
  unfold from_bip70_payreq, OnchainInvoice_init.
  rewrite (proj2 (bind_kwargs_ok_dom _ _)).
  2:{ rewrite dom_list_to_map_L. simpl. unfold OnchainInvoice_params. set_solver. }
  reflexivity.
Qed.

(** An invoice made by [from_bip70_payreq] is an on-chain one that keeps the
    memo, the id, the requestor and the creation time of the request and the
    raw request in hexadecimal; its expiry added to its time is the
    expiration date of the request.  Its unpaid status therefore counts down
    to that date when the date lies after the creation time, and is the
    plain "Unpaid" label when it does not, as for a request without
    expiration date. *)
Theorem from_bip70_payreq_invoice (pr : PaymentRequest) (at_height : pyval)
    (inv : OnchainInvoice) :
  from_bip70_payreq pr at_height = Ok inv ->
  is_lightning (Onchain inv) = false
  /\ onchain_time inv = get_time pr
  /\ onchain_exp inv + onchain_time inv = get_expiration_date pr
  /\ (onchain_message inv, onchain_id inv, requestor inv)
     = (get_memo pr, get_id pr, get_requestor pr)
  /\ bip70 inv = PyStr (bytes_hex (raw pr))
  /\ as_int at_height = Some (height inv)
  /\ forall n,
      fst (get_status_str PR_UNPAID (Onchain inv, n))
      = Ok (if (get_time pr <? get_expiration_date pr)
               && negb (get_expiration_date pr - get_time pr =? LN_EXPIRY_NEVER)
            then gettext "Expires" +:+ " " +:+ age (get_expiration_date pr)
            else gettext "Unpaid").
Proof.
  rewrite from_bip70_payreq_steps. unfold instance_of_int.
  destruct (outputs_converter _) as [outs|]; [|done]. simpl.
  destruct (OnchainInvoice_validate_amount _) as [amount|]; [|done]. simpl.
  destruct (as_int at_height) as [h|]; [|done]. simpl.
  intros [= <-]. simpl. repeat split; try done; try lia.
  intros n.
  rewrite (unpaid_status_cases _ (get_expiration_date pr - get_time pr) (get_time pr))
    by done.
  replace (get_expiration_date pr - get_time pr + get_time pr)
    with (get_expiration_date pr) by lia.
  destruct (Z.ltb_spec 0 (get_expiration_date pr - get_time pr));
    destruct (Z.ltb_spec (get_time pr) (get_expiration_date pr)); try lia; done.
Qed.

(** ** Normalisation, again *)

Lemma omap_canonical (os : list PartialTxOutput) :
  omap decode_entry (PyTxOutput <$> os) = os.
Proof.
  induction os as [|o os IH]; [done|]. rewrite fmap_cons.
  change (omap decode_entry (PyTxOutput o :: (PyTxOutput <$> os)))
    with (o :: omap decode_entry (PyTxOutput <$> os)).
  by rewrite IH.
Qed.

Lemma decode_outputs_canonical (os : list PartialTxOutput) :
  _decode_outputs (PyTxOutput <$> os) = os.
Proof. rewrite decode_outputs_omap. apply omap_canonical. Qed.

(** [_decode_outputs] is the identity on canonical outputs, applying it
    again to its own result changes nothing, and it works entry by entry:
    the outputs of a concatenation are the outputs of the parts, in order. *)
Theorem decode_outputs_algebra :
  (forall os, _decode_outputs (PyTxOutput <$> os) = os)
  /\ (forall entries,
      _decode_outputs (PyTxOutput <$> _decode_outputs entries) = _decode_outputs entries)
  /\ (forall entries1 entries2,
      _decode_outputs (entries1 ++ entries2)
      = (_decode_outputs entries1 ++ _decode_outputs entries2)%list).
Proof.
  split; [|split].
  - apply decode_outputs_canonical.
  - intros entries. apply decode_outputs_canonical.
  - intros entries1 entries2. rewrite !decode_outputs_omap. apply omap_app.
Qed.

Lemma onchain_validator_idempotent (v v' : pyval) :
  OnchainInvoice_validate_amount v = Ok v' ->
  OnchainInvoice_validate_amount v' = Ok v'.
Proof.
  unfold OnchainInvoice_validate_amount.
  destruct (match as_int v with Some n => _ | None => _ end) as [u|]; [|done].
  simpl. destruct u as [ |b|z|q|s|l|l|d|r|o|cls]; try discriminate.
  - destruct (String.eqb s "!") eqn:Hs; [|done]. intros [= <-]. simpl. by rewrite Hs.
  - destruct (_ && _) eqn:Hb; [|done]. intros [= <-]. simpl. by rewrite Hb.
Qed.

(** Construction is idempotent on what it normalises: putting the stored
    amount and the stored outputs of an invoice back into the record it was
    built from, and constructing again, gives the same invoice. *)
Theorem onchain_renormalisation (x : gmap string pyval) (inv : OnchainInvoice) :
  OnchainInvoice_init x = Ok inv ->
  OnchainInvoice_init
    (<["amount_sat" := amount_sat inv]>
       (<["outputs" := PyList (PyTxOutput <$> outputs inv)]> x))
  = Ok inv.
Proof.
  intros Hinit.
  destruct (onchain_init_fields x inv Hinit)
    as (Hdom & _ & Hamount & Hexp & Htime & Hheight & Hrest).
  set (x' := <["amount_sat" := amount_sat inv]>
               (<["outputs" := PyList (PyTxOutput <$> outputs inv)]> x)).
  assert (Hother : forall k, k <> "amount_sat" -> k <> "outputs" -> arg x' k = arg x k).
  { intros k Ha Ho. unfold arg, x'. by rewrite !lookup_insert_ne. }
  assert (Hamount' : arg x' "amount_sat" = amount_sat inv).
  { unfold arg, x'. by rewrite lookup_insert_eq. }
  assert (Houts' : arg x' "outputs" = PyList (PyTxOutput <$> outputs inv)).
  { unfold arg, x'. by rewrite lookup_insert_ne, lookup_insert_eq. }
  unfold OnchainInvoice_init, instance_of_int, outputs_converter.
  rewrite (proj2 (bind_kwargs_ok_dom _ _)).
  2:{ unfold x'. rewrite !dom_insert_L, Hdom. unfold OnchainInvoice_params. set_solver. }
  rewrite Hamount', Houts', !Hother by done.
  cbn [rbind py_iter]. rewrite decode_outputs_canonical.
  rewrite (onchain_validator_idempotent _ _ Hamount), Hexp, Htime, Hheight.
  cbn [rbind]. destruct inv. simpl in *. by injection Hrest as <- <- <- <- <-.
Qed.

(** ** The first address *)

Lemma omap_all_fail (entries : list pyval) :
  omap decode_entry entries = [] <-> Forall (fun e => decode_entry e = None) entries.
Proof.
  induction entries as [|e entries IH]; simpl.
  - split; [constructor|done].
  - destruct (decode_entry e) as [o|] eqn:He.
    + split; [done|]. intros Hall. apply Forall_cons in Hall as [? _]. congruence.
    + rewrite IH. split; [by constructor|]. by intros [_ ?]%Forall_cons.
Qed.

(** [get_address()] of a constructed invoice returns the address of the
    first entry of [outputs] that could be normalised, and raises
    [IndexError] exactly when none could; that is the case of an empty list
    of outputs, which the constructor accepts. *)
Theorem get_address_first_normalised (x : gmap string pyval) (inv : OnchainInvoice)
    (entries : list pyval) :
  OnchainInvoice_init x = Ok inv ->
  py_iter (arg x "outputs") = Some entries ->
  (forall skipped e o rest,
      entries = (skipped ++ e :: rest)%list ->
      Forall (fun e => decode_entry e = None) skipped ->
      decode_entry e = Some o ->
      OnchainInvoice_get_address inv = Ok (address o))
  /\ (OnchainInvoice_get_address inv = Raise IndexError
      <-> Forall (fun e => decode_entry e = None) entries).
Proof.
  intros Hinit Hiter.
  destruct (onchain_init_fields x inv Hinit) as (_ & Houts & _).
  unfold outputs_converter in Houts. rewrite Hiter in Houts.
  injection Houts as Houts. rewrite decode_outputs_omap in Houts.
  unfold OnchainInvoice_get_address. rewrite <- Houts. split.
  - intros skipped e o rest -> Hskipped He.
    rewrite omap_app, (proj2 (omap_all_fail skipped) Hskipped). simpl.
    by rewrite He.
  - rewrite <- omap_all_fail. by destruct (omap decode_entry entries).
Qed.

End Invoices.

(** * The theorems on the sample wallet *)

Local Abbreviation sample_OnchainInvoice_init :=
  (OnchainInvoice_init Sample.COIN Sample.TOTAL_COIN_SUPPLY_LIMIT_IN_BTC
     Sample.RavenValue_from_json Sample.from_legacy_tuple).
Local Abbreviation sample_LNInvoice_init :=
  (LNInvoice_init Sample.COIN Sample.TOTAL_COIN_SUPPLY_LIMIT_IN_BTC Sample.LnAddr
     Sample.lndecode).
Local Abbreviation sample_from_json :=
  (from_json Sample.COIN Sample.TOTAL_COIN_SUPPLY_LIMIT_IN_BTC
     Sample.RavenValue_from_json Sample.from_legacy_tuple Sample.LnAddr Sample.lndecode).

Lemma sample_onchain_fields_valid (amount : pyval) :
  onchain_fields_valid (Sample.onchain_record amount).
Proof. repeat split; by eexists. Qed.

Lemma sample_ln_fields_valid (amount : pyval) :
  ln_fields_valid Sample.LnAddr Sample.lndecode
    (Sample.ln_record (PyStr "lnbc2500u1coffee") amount).
Proof. split; [reflexivity|by eexists]. Qed.

(** C1 on the sample wallet: a negative on-chain amount, and the sentinel
    given as the fallback amount of a lightning invoice. *)
Lemma invalid_amount_raises_InvoiceError_witness :
  is_InvoiceError (sample_OnchainInvoice_init (Sample.onchain_record (PyInt (-1))))
  /\ is_InvoiceError
       (sample_LNInvoice_init (Sample.ln_record (PyStr "lnbc2500u1coffee") (PyStr "!"))).
Proof.
  pose proof (invalid_amount_raises_InvoiceError Sample.COIN
                Sample.TOTAL_COIN_SUPPLY_LIMIT_IN_BTC Sample.RavenValue_from_json
                Sample.from_legacy_tuple Sample.LnAddr Sample.lndecode)
    as (Honchain & Hln & _).
  split.
  - apply Honchain.
    + reflexivity.
    + by eexists.
    + right. exists (inject_Z (-1)). split; [reflexivity|].
      intros [Hneg _]. by apply Hneg.
  - apply Hln.
    + apply sample_ln_fields_valid.
    + by left.
Defined.

(** C2 on the sample wallet, at the ceiling itself. *)
Lemma onchain_amount_roundtrip_witness :
  exists inv r,
    sample_OnchainInvoice_init (Sample.onchain_record (PyInt 2100000000000000000)) = Ok inv
    /\ OnchainInvoice_get_amount_sat Sample.RavenValue_bool inv = PyRavenValue r
    /\ (rvn_value r == inject_Z 2100000000000000000)%Q.
Proof.
  pose proof (onchain_amount_roundtrip Sample.COIN Sample.TOTAL_COIN_SUPPLY_LIMIT_IN_BTC
                Sample.RavenValue_from_json Sample.RavenValue_bool
                Sample.from_legacy_tuple Sample.LnAddr Sample.lndecode Sample.amount
                Sample.context_round Sample.Decimal_from Sample.RavenValue_of_Satoshis
                (Sample.onchain_record (PyInt 2100000000000000000))
                2100000000000000000) as Hthm.
  destruct Hthm as (inv & r & Hinit & Hget & Hcount & _).
  - intros r. discriminate.
  - apply sample_onchain_fields_valid.
  - reflexivity.
  - split; discriminate.
  - by exists inv, r.
Defined.

(** C3 on the sample wallet: one output, [exp = 0]. *)
Lemma max_amount_is_returned_as_sentinel_witness :
  exists inv,
    sample_OnchainInvoice_init (Sample.onchain_record (PyStr "!")) = Ok inv
    /\ OnchainInvoice_get_amount_sat Sample.RavenValue_bool inv = PyStr "!".
Proof.
  pose proof (max_amount_is_returned_as_sentinel Sample.COIN
                Sample.TOTAL_COIN_SUPPLY_LIMIT_IN_BTC Sample.RavenValue_from_json
                Sample.RavenValue_bool Sample.from_legacy_tuple Sample.LnAddr
                Sample.lndecode Sample.amount Sample.context_round Sample.Decimal_from
                Sample.RavenValue_of_Satoshis
                (Sample.onchain_record (PyStr "!"))) as Hthm.
  destruct Hthm as (inv & Hinit & _ & Hget & _).
  - apply sample_onchain_fields_valid.
  - reflexivity.
  - by exists inv.
Defined.

(** C3 as the specification words it fails on that record: the construction
    succeeds, and [get_amount_sat()] returns the sentinel, which is not the
    monetary value zero. *)
Lemma max_amount_is_not_returned_as_zero :
  let inv :=
    mkOnchain (PyInt 0) (PyStr "rent") (PyStr "!") 0 1700000000 (PyStr "a1b2c3")
      [mkOutput "RAddr" OutMax] PyNone PyNone 120 in
  sample_OnchainInvoice_init (Sample.onchain_record (PyStr "!")) = Ok inv
  /\ length (outputs inv) = 1%nat
  /\ onchain_exp inv = 0
  /\ OnchainInvoice_get_amount_sat Sample.RavenValue_bool inv = PyStr "!"
  /\ OnchainInvoice_get_amount_sat Sample.RavenValue_bool inv
     <> PyRavenValue RavenValue_default.
Proof. cbv zeta. repeat split. discriminate. Qed.

Local Abbreviation sample_get_amount_msat :=
  (LNInvoice_get_amount_msat Sample.COIN Sample.LnAddr Sample.lndecode Sample.amount
     Sample.context_round).
Local Abbreviation sample_get_amount_sat :=
  (LNInvoice_get_amount_sat Sample.COIN Sample.LnAddr Sample.lndecode Sample.amount
     Sample.context_round Sample.Decimal_from Sample.RavenValue_of_Satoshis).
Local Abbreviation sample_run :=
  (run Sample.COIN Sample.LnAddr Sample.lndecode Sample.amount Sample.expiry
     Sample.timestamp Sample.description Sample.payment_hash Sample.context_round).
Local Abbreviation sample_get_status_str :=
  (get_status_str Sample.LnAddr Sample.lndecode Sample.expiry Sample.timestamp
     Sample.gettext Sample.age).



(** Beyond 28 digits the arithmetic of [Decimal] rounds: with the rounding
    of the sample wallet, an amount of 30 digits is not returned digit for
    digit. *)
Example rounded_amount_sample :
  encoded_amount Sample.COIN Sample.LnAddr Sample.amount Sample.context_round
    (Sample.mkLnAddr (Some (inject_Z 123456789012345678901234567891)) 3600 1700000000
       "whale" "0004")
  = Some 12345678901234567890123456790000000000000.
Proof. vm_compute. reflexivity. Qed.

(** C5 on the sample wallet: five accessors in a row on a fresh invoice. *)
Lemma lazy_decode_once_witness :
  let self := mkLN Sample.LnAddr (PyInt 2) (PyStr "lnbc2500u1coffee") PyNone None in
  (snd (snd (sample_run [Amessage; Aexp; Arhash; Aget_amount_msat; Atime] (self, 0%nat)))
   <= 1)%nat.
Proof.
  cbv zeta.
  pose proof (lazy_decode_once Sample.COIN Sample.TOTAL_COIN_SUPPLY_LIMIT_IN_BTC
                Sample.LnAddr Sample.lndecode Sample.amount Sample.expiry
                Sample.timestamp Sample.description Sample.payment_hash
                Sample.context_round
                (Sample.ln_record (PyStr "lnbc2500u1coffee") PyNone)
                (mkLN Sample.LnAddr (PyInt 2) (PyStr "lnbc2500u1coffee") PyNone None)
                [Amessage; Aexp; Arhash; Aget_amount_msat; Atime]) as Hthm.
  destruct Hthm as (_ & Hcount & _).
  - reflexivity.
  - exact Hcount.
Defined.

(** C6 on the sample wallet: a record of type 2, a record of type 0, and a
    record of the unknown type 7. *)
Lemma from_json_dispatch_witness :
  (exists l, sample_from_json (Sample.ln_record (PyStr "lnbc2500u1coffee") PyNone)
             = Ok (Lightning Sample.LnAddr l))
  /\ (exists o, sample_from_json (Sample.onchain_record (PyInt 5))
                = Ok (Onchain Sample.LnAddr o))
  /\ (exists o, sample_from_json (<["type" := PyInt 7]> (Sample.onchain_record (PyInt 5)))
                = Ok (Onchain Sample.LnAddr o)
                /\ onchain_type o = PyInt 7).
Proof.
  split; [|split].
  - destruct (from_json_dispatch Sample.COIN Sample.TOTAL_COIN_SUPPLY_LIMIT_IN_BTC
                Sample.RavenValue_from_json Sample.from_legacy_tuple Sample.LnAddr
                Sample.lndecode (Sample.ln_record (PyStr "lnbc2500u1coffee") PyNone))
      as (Hln & _).
    rewrite Hln; [by eexists|]. by exists (PyInt 2).
  - destruct (from_json_dispatch Sample.COIN Sample.TOTAL_COIN_SUPPLY_LIMIT_IN_BTC
                Sample.RavenValue_from_json Sample.from_legacy_tuple Sample.LnAddr
                Sample.lndecode (Sample.onchain_record (PyInt 5)))
      as (_ & Honchain & _).
    rewrite Honchain; [by eexists|]. intros (v & [= <-] & Hv). discriminate.
  - destruct (from_json_dispatch Sample.COIN Sample.TOTAL_COIN_SUPPLY_LIMIT_IN_BTC
                Sample.RavenValue_from_json Sample.from_legacy_tuple Sample.LnAddr
                Sample.lndecode
                (<["type" := PyInt 7]> (Sample.onchain_record (PyInt 5))))
      as (_ & _ & Hother & _).
    apply (Hother (PyInt 7) (PyRavenValue (RavenValue_of_int 5))).
    + reflexivity.
    + reflexivity.
    + repeat split; by eexists.
    + reflexivity.
Defined.

(** C6 as the specification words it fails on a record without the field:
    the on-chain record of the sample wallet is constructed with its type,
    and with the type taken away [from_json] raises [TypeError]; no
    [OnchainInvoice] is constructed. *)
Lemma record_without_type_constructs_nothing :
  let x := delete "type" (Sample.onchain_record (PyInt 5)) in
  x !! "type" = None
  /\ (exists o, sample_from_json (<["type" := PyInt 0]> x) = Ok (Onchain Sample.LnAddr o))
  /\ sample_from_json x = Raise TypeError
  /\ ~ exists o, sample_from_json x = Ok (Onchain Sample.LnAddr o).
Proof.
  cbv zeta. split; [reflexivity|]. split; [by eexists|]. split; [reflexivity|].
  intros [o Ho]. discriminate Ho.
Qed.

(** C7 on the sample wallet: a lightning record with a note attached. *)
Lemma undeclared_field_raises_TypeError_witness :
  sample_from_json
    (<["note" := PyStr "thanks"]> (Sample.ln_record (PyStr "lnbc2500u1coffee") PyNone))
  = Raise TypeError.
Proof.
  apply (undeclared_field_raises_TypeError Sample.COIN
           Sample.TOTAL_COIN_SUPPLY_LIMIT_IN_BTC Sample.RavenValue_from_json
           Sample.from_legacy_tuple Sample.LnAddr Sample.lndecode _ "note").
  - apply elem_of_dom. by eexists.
  - apply (bool_decide_unpack _). reflexivity.
Defined.

(** C7 as the specification words it fails on that record: the error that
    rejects it is not an [InvoiceError]. *)
Lemma undeclared_field_is_not_an_InvoiceError :
  let x := <["note" := PyStr "thanks"]>
             (Sample.ln_record (PyStr "lnbc2500u1coffee") PyNone) in
  ("note" ∈ dom x)
  /\ ("note" ∉ selected_params x)
  /\ ~ is_InvoiceError (sample_from_json x).
Proof.
  cbv zeta. split; [|split].
  - apply elem_of_dom. by eexists.
  - apply (bool_decide_unpack _). reflexivity.
  - intros [msg Hmsg]. discriminate.
Qed.

(** C8 on the sample wallet: a canonical entry, an entry that cannot be
    unpacked, a legacy tuple and a tuple of the wrong arity. *)
Example decode_outputs_sample :
  _decode_outputs Sample.from_legacy_tuple
    [PyTxOutput (mkOutput "RAddr" OutMax);
     PyInt 7;
     PyTuple [PyInt 0; PyStr "RChange"; PyInt 50];
     PyTuple [PyInt 0; PyStr "RShort"]]
  = [mkOutput "RAddr" OutMax; mkOutput "RChange" (OutExact 50)].
Proof. reflexivity. Qed.

(** C9 on the sample wallet: an hour of expiry. *)
Lemma get_status_str_countdown_witness :
  let inv :=
    mkOnchain (PyInt 0) (PyStr "rent") (PyInt 5) 3600 1700000000 (PyStr "a1b2c3")
      [mkOutput "RAddr" OutMax] PyNone PyNone 120 in
  fst (sample_get_status_str PR_UNPAID (Onchain Sample.LnAddr inv, 0%nat))
  = Ok "Expires until 1700003600".
Proof.
  cbv zeta.
  destruct (get_status_str_countdown Sample.LnAddr Sample.lndecode Sample.expiry
              Sample.timestamp Sample.gettext Sample.age
              (Onchain Sample.LnAddr
                 (mkOnchain (PyInt 0) (PyStr "rent") (PyInt 5) 3600 1700000000
                    (PyStr "a1b2c3") [mkOutput "RAddr" OutMax] PyNone PyNone 120),
               0%nat)) as (Hcountdown & _).
  rewrite (Hcountdown 3600 1700000000 eq_refl eq_refl); [reflexivity|lia|discriminate].
Defined.

(** C10 on the sample wallet: a lightning invoice whose decoded expiry is
    the "never" value. *)
Lemma never_expiry_reads_unpaid_witness :
  let self := mkLN Sample.LnAddr (PyInt 2) (PyStr "lnbc1donation") PyNone None in
  fst (sample_get_status_str PR_UNPAID (Lightning Sample.LnAddr self, 0%nat)) = Ok "Unpaid".
Proof.
  cbv zeta.
  apply (never_expiry_reads_unpaid Sample.LnAddr Sample.lndecode Sample.expiry
           Sample.timestamp Sample.gettext Sample.age).
  reflexivity.
Defined.

(** A record without its discriminator, on the sample wallet. *)
Lemma from_json_without_type_witness :
  sample_from_json (delete "type" (Sample.onchain_record (PyInt 5))) = Raise TypeError.
Proof.
  apply (from_json_without_type Sample.COIN Sample.TOTAL_COIN_SUPPLY_LIMIT_IN_BTC
           Sample.RavenValue_from_json Sample.from_legacy_tuple Sample.LnAddr
           Sample.lndecode).
  reflexivity.
Defined.

(** The sample invoices keep the invariants of construction. *)
Lemma construction_invariants_witness :
  (exists inv, sample_OnchainInvoice_init (Sample.onchain_record (PyInt 5)) = Ok inv
               /\ amount_sat inv = PyRavenValue (RavenValue_of_int 5))
  /\ (exists self,
        sample_LNInvoice_init (Sample.ln_record (PyStr "lnbc1donation") (PyInt 7))
        = Ok self
        /\ __lnaddr _ self = None).
Proof.
  destruct (construction_invariants Sample.COIN Sample.TOTAL_COIN_SUPPLY_LIMIT_IN_BTC
              Sample.RavenValue_from_json Sample.from_legacy_tuple Sample.LnAddr
              Sample.lndecode) as [Honchain Hln].
  split.
  - eexists. split; [reflexivity|]. reflexivity.
  - eexists. split; [reflexivity|].
    eapply (Hln (Sample.ln_record (PyStr "lnbc1donation") (PyInt 7))). reflexivity.
Defined.

(** A string the sample codec does not know. *)
Lemma undecodable_invoice_string_witness :
  sample_LNInvoice_init (Sample.ln_record (PyStr "lnbc-garbled") (PyInt (-1)))
  = Raise ForeignError
  /\ is_InvoiceError
       (LNInvoice_from_bech32 Sample.COIN Sample.TOTAL_COIN_SUPPLY_LIMIT_IN_BTC
          Sample.LnAddr Sample.lndecode Sample.get_amount_msat (PyStr "lnbc-garbled")).
Proof.
  destruct (undecodable_invoice_string Sample.COIN Sample.TOTAL_COIN_SUPPLY_LIMIT_IN_BTC
              Sample.LnAddr Sample.lndecode Sample.get_amount_msat) as [Hinit Hbech32].
  split; [apply Hinit|apply Hbech32]; reflexivity.
Defined.

(** * Further runs on the sample wallet *)

Local Abbreviation sample_from_bip70_payreq :=
  (from_bip70_payreq Sample.COIN Sample.TOTAL_COIN_SUPPLY_LIMIT_IN_BTC
     Sample.RavenValue_from_json Sample.from_legacy_tuple).

(** The fields of a sample record are found again in the invoice. *)
Lemma from_json_stores_the_record_witness :
  exists inv,
    sample_from_json (Sample.onchain_record (PyInt 5)) = Ok inv
    /\ Invoice_type Sample.LnAddr inv = PyInt 0.
Proof.
  eexists. split; [reflexivity|].
  eapply (from_json_stores_the_record Sample.COIN Sample.TOTAL_COIN_SUPPLY_LIMIT_IN_BTC
            Sample.RavenValue_from_json Sample.from_legacy_tuple Sample.LnAddr
            Sample.lndecode (Sample.onchain_record (PyInt 5))).
  reflexivity.
Defined.

(** The sample lightning record gives an invoice that says it is one. *)
Lemma from_json_is_lightning_witness :
  let self := mkLN Sample.LnAddr (PyInt 2) (PyStr "lnbc2500u1coffee") PyNone None in
  sample_from_json (Sample.ln_record (PyStr "lnbc2500u1coffee") PyNone)
  = Ok (Lightning Sample.LnAddr self)
  /\ is_lightning Sample.LnAddr (Lightning Sample.LnAddr self) = true.
Proof.
  cbv zeta. split; [reflexivity|].
  destruct (from_json_is_lightning Sample.COIN Sample.TOTAL_COIN_SUPPLY_LIMIT_IN_BTC
              Sample.RavenValue_from_json Sample.from_legacy_tuple Sample.LnAddr
              Sample.lndecode (Sample.ln_record (PyStr "lnbc2500u1coffee") PyNone)
              (Lightning Sample.LnAddr
                 (mkLN Sample.LnAddr (PyInt 2) (PyStr "lnbc2500u1coffee") PyNone None))
              eq_refl) as [[_ Hln] _].
  apply Hln. by eexists.
Defined.

(** [from_bech32] on the sample codec: the decoded amount becomes the
    fallback amount. *)
Example from_bech32_sample :
  LNInvoice_from_bech32 Sample.COIN Sample.TOTAL_COIN_SUPPLY_LIMIT_IN_BTC Sample.LnAddr
    Sample.lndecode Sample.get_amount_msat (PyStr "lnbc2500u1coffee")
  = Ok (mkLN Sample.LnAddr (PyInt 2) (PyStr "lnbc2500u1coffee") (PyInt 250000000) None).
Proof. reflexivity. Qed.

(** An expiry of minus one minute reads "Unpaid". *)
Lemma get_status_str_unpaid_witness :
  let inv :=
    mkOnchain (PyInt 0) (PyStr "rent") (PyInt 5) (-60) 1700000000 (PyStr "a1b2c3")
      [mkOutput "RAddr" OutMax] PyNone PyNone 120 in
  fst (sample_get_status_str PR_UNPAID (Onchain Sample.LnAddr inv, 0%nat)) = Ok "Unpaid".
Proof.
  cbv zeta.
  destruct (get_status_str_unpaid Sample.LnAddr Sample.lndecode Sample.expiry
              Sample.timestamp Sample.gettext Sample.age
              (Onchain Sample.LnAddr
                 (mkOnchain (PyInt 0) (PyStr "rent") (PyInt 5) (-60) 1700000000
                    (PyStr "a1b2c3") [mkOutput "RAddr" OutMax] PyNone PyNone 120),
               0%nat)
              (-60) 1700000000 eq_refl eq_refl) as [_ Hneg].
  apply Hneg. lia.
Defined.

(** The status code 9 is not in the table. *)
Lemma get_status_str_known_codes_witness :
  let w :=
    (Lightning Sample.LnAddr
       (mkLN Sample.LnAddr (PyInt 2) (PyStr "lnbc2500u1coffee") PyNone None), 0%nat) in
  sample_get_status_str 9 w = (Raise KeyError, w).
Proof.
  cbv zeta.
  apply (proj1 (get_status_str_known_codes Sample.LnAddr Sample.lndecode Sample.expiry
                  Sample.timestamp Sample.gettext Sample.age 9 _)).
  right. lia.
Defined.

(** Asking a fresh sample lightning invoice for its unpaid status decodes it
    once and fills its cache. *)
Lemma get_status_str_effect_witness :
  let self := mkLN Sample.LnAddr (PyInt 2) (PyStr "lnbc2500u1coffee") PyNone None in
  snd (sample_get_status_str PR_UNPAID (Lightning Sample.LnAddr self, 0%nat))
  = (Lightning Sample.LnAddr
       (mkLN Sample.LnAddr (PyInt 2) (PyStr "lnbc2500u1coffee") PyNone (Some Sample.coffee)),
     1%nat).
Proof.
  cbv zeta.
  destruct (get_status_str_effect Sample.COIN Sample.TOTAL_COIN_SUPPLY_LIMIT_IN_BTC
              Sample.LnAddr Sample.lndecode Sample.expiry Sample.timestamp
              Sample.gettext Sample.age PR_UNPAID 0%nat) as (_ & Hln & _).
  rewrite (Hln _ Sample.coffee); [reflexivity|].
  repeat split. by left.
Defined.

(** A bad [exp] is a [TypeError]; together with a bad amount, the amount is
    reported. *)
Lemma onchain_checks_in_order_witness :
  sample_OnchainInvoice_init (<["exp" := PyStr "soon"]> (Sample.onchain_record (PyInt 5)))
  = Raise TypeError
  /\ sample_OnchainInvoice_init
       (<["exp" := PyStr "soon"]> (Sample.onchain_record (PyInt (-1))))
     = Raise (InvoiceError "amount is out-of-bounds").
Proof.
  split.
  - destruct (onchain_checks_in_order Sample.COIN Sample.TOTAL_COIN_SUPPLY_LIMIT_IN_BTC
                Sample.RavenValue_from_json Sample.from_legacy_tuple
                (<["exp" := PyStr "soon"]> (Sample.onchain_record (PyInt 5))))
      as (_ & _ & Hint); [reflexivity|].
    eapply Hint; [by eexists|reflexivity|by left].
  - destruct (onchain_checks_in_order Sample.COIN Sample.TOTAL_COIN_SUPPLY_LIMIT_IN_BTC
                Sample.RavenValue_from_json Sample.from_legacy_tuple
                (<["exp" := PyStr "soon"]> (Sample.onchain_record (PyInt (-1)))))
      as (_ & Hamount & _); [reflexivity|].
    apply Hamount; [by eexists|reflexivity].
Defined.

(** The sample request becomes an invoice that expires when the request
    does. *)
Lemma from_bip70_payreq_invoice_witness :
  let inv :=
    mkOnchain (PyInt 0) (PyStr "two tickets") (PyRavenValue (RavenValue_of_int 5000))
      3600 1700000000 (PyStr "f00d") [mkOutput "RMerchant" (OutExact 5000)]
      (PyStr "0a1fff") (PyStr "shop.example") 120 in
  sample_from_bip70_payreq Sample.payment_request (PyInt 120) = Ok inv
  /\ fst (sample_get_status_str PR_UNPAID (Onchain Sample.LnAddr inv, 0%nat))
     = Ok "Expires until 1700003600".
Proof.
  cbv zeta. split; [reflexivity|].
  destruct (from_bip70_payreq_invoice Sample.COIN Sample.TOTAL_COIN_SUPPLY_LIMIT_IN_BTC
              Sample.RavenValue_from_json Sample.from_legacy_tuple Sample.LnAddr
              Sample.lndecode Sample.expiry Sample.timestamp Sample.gettext Sample.age
              Sample.payment_request (PyInt 120)
              (mkOnchain (PyInt 0) (PyStr "two tickets")
                 (PyRavenValue (RavenValue_of_int 5000)) 3600 1700000000 (PyStr "f00d")
                 [mkOutput "RMerchant" (OutExact 5000)] (PyStr "0a1fff")
                 (PyStr "shop.example") 120)
              eq_refl) as (_ & _ & _ & _ & _ & _ & Hstatus).
  rewrite Hstatus. reflexivity.
Defined.

(** A record with a legacy tuple and an entry that does not convert:
    constructing again from the normalised amount and outputs gives the same
    invoice. *)
Lemma onchain_renormalisation_witness :
  let x :=
    <["outputs" := PyList [PyTuple [PyInt 0; PyStr "RChange"; PyInt 50]; PyInt 7]]>
      (Sample.onchain_record (PyInt 5)) in
  let inv :=
    mkOnchain (PyInt 0) (PyStr "rent") (PyRavenValue (RavenValue_of_int 5)) 0 1700000000
      (PyStr "a1b2c3") [mkOutput "RChange" (OutExact 50)] PyNone PyNone 120 in
  sample_OnchainInvoice_init x = Ok inv
  /\ sample_OnchainInvoice_init
       (<["amount_sat" := PyRavenValue (RavenValue_of_int 5)]>
          (<["outputs" := PyList [PyTxOutput (mkOutput "RChange" (OutExact 50))]]> x))
     = Ok inv.
Proof.
  cbv zeta. split; [reflexivity|].
  apply (onchain_renormalisation Sample.COIN Sample.TOTAL_COIN_SUPPLY_LIMIT_IN_BTC
           Sample.RavenValue_from_json Sample.from_legacy_tuple
           (<["outputs" := PyList [PyTuple [PyInt 0; PyStr "RChange"; PyInt 50]; PyInt 7]]>
              (Sample.onchain_record (PyInt 5)))
           (mkOnchain (PyInt 0) (PyStr "rent") (PyRavenValue (RavenValue_of_int 5)) 0
              1700000000 (PyStr "a1b2c3") [mkOutput "RChange" (OutExact 50)] PyNone
              PyNone 120)).
  reflexivity.
Defined.

(** An invoice without outputs is constructed, and has no address. *)
Lemma get_address_first_normalised_witness :
  let x := <["outputs" := PyList []]> (Sample.onchain_record (PyInt 5)) in
  let inv :=
    mkOnchain (PyInt 0) (PyStr "rent") (PyRavenValue (RavenValue_of_int 5)) 0 1700000000
      (PyStr "a1b2c3") [] PyNone PyNone 120 in
  sample_OnchainInvoice_init x = Ok inv
  /\ OnchainInvoice_get_address inv = Raise IndexError.
Proof.
  cbv zeta. split; [reflexivity|].
  destruct (get_address_first_normalised Sample.COIN
              Sample.TOTAL_COIN_SUPPLY_LIMIT_IN_BTC Sample.RavenValue_from_json
              Sample.from_legacy_tuple
              (<["outputs" := PyList []]> (Sample.onchain_record (PyInt 5)))
              (mkOnchain (PyInt 0) (PyStr "rent")
                 (PyRavenValue (RavenValue_of_int 5)) 0 1700000000 (PyStr "a1b2c3")
                 [] PyNone PyNone 120)
              []) as (_ & Hnone); [reflexivity|reflexivity|].
  apply Hnone. constructor.
Defined.
